(** * Meeting Intel: request construction, response handling and session state

    A shallow embedding of [src/services/geminiService.ts] and of the state
    handlers of [src/App.tsx], with the properties the specification states
    about them.

    Conventions.
    - A JavaScript string is a [string] (a byte sequence, read as UTF-8).
      The only string operations the program uses are concatenation,
      truthiness and [split] on the ASCII separators [","] and ["."], all of
      which commute with the encoding.
    - A JavaScript value that the program treats as data (the parsed
      response, a report) is a [json] tree; an object is an ordered list of
      own properties with distinct keys.
    - An [async] function is split at its [await]: what runs before it, and
      the continuation that runs when the awaited promise settles.  The
      browser's event loop is the list of events fed to [react].
    - The progress percentage, a floating-point number that only drives the
      progress bar, is a rational. *)

From Stdlib Require Import String Ascii ZArith QArith.
From stdpp Require Import gmap strings list.

Local Open Scope string_scope.
Local Open Scope list_scope.

(** ** JavaScript strings *)

Module Js.

(** Truthiness of a string: only the empty string is falsy. *)
Definition truthy (s : string) : bool :=
  match s with
  | EmptyString => false
  | String _ _ => true
  end.

(** [a || b] where [a] is [undefined] or a string and [b] is a string. *)
Definition or_else (a : option string) (b : string) : string :=
  match a with
  | Some s => if truthy s then s else b
  | None => b
  end.

(** [s.split(sep)] for a one-character separator: the pieces between the
    occurrences of [sep]; always at least one piece. *)
Fixpoint split (sep : ascii) (s : string) : list string :=
  match s with
  | EmptyString => [EmptyString]
  | String c r =>
      if Ascii.eqb c sep then EmptyString :: split sep r
      else match split sep r with
           | p :: ps => String c p :: ps
           | [] => [String c EmptyString]
           end
  end.

(** [!s.includes(c)]. *)
Fixpoint lacks (c : ascii) (s : string) : bool :=
  match s with
  | EmptyString => true
  | String d r => negb (Ascii.eqb d c) && lacks c r
  end.

(** Decimal rendering of an array index, as property keys have it. *)
Definition digit (n : nat) : ascii := ascii_of_nat (48 + n).

Fixpoint index_key_aux (fuel n : nat) (acc : string) : string :=
  match fuel with
  | O => acc
  | S fuel' =>
      let acc' := String (digit (n mod 10)) acc in
      if (n <? 10)%nat then acc' else index_key_aux fuel' (n / 10) acc'
  end.

Definition index_key (n : nat) : string := index_key_aux (S n) n EmptyString.

End Js.

(** ** JSON values *)

#[local] Set Warnings "-register-all".

Inductive json : Type :=
| JNull
| JBool (b : bool)
| JNumber (lexeme : string)
| JString (s : string)
| JArray (items : list json)
| JObject (props : list (string * json)).

(** Numbers keep the text of their literal; the program never computes with
    a number of a response. *)

Module Obj.

(** Own properties of an object, in creation order. *)
Definition t : Type := list (string * json).

(** [o[k]]: [None] is [undefined]. *)
Fixpoint get (k : string) (o : t) : option json :=
  match o with
  | [] => None
  | (k', v) :: o' => if String.eqb k k' then Some v else get k o'
  end.

(** [o[k] = v]: an existing property keeps its place, a new one goes last. *)
Fixpoint set (k : string) (v : json) (o : t) : t :=
  match o with
  | [] => [(k, v)]
  | (k', v') :: o' =>
      if String.eqb k k' then (k, v) :: o' else (k', v') :: set k v o'
  end.

End Obj.

(** ** Exceptions and promise settlement *)

Inductive JsError : Type :=
| SyntaxError (message : string)
| ServiceError (message : string).

(** How a computation completes: normally with a value, or abruptly with a
    thrown error.  For an [async] function this is how its promise settles. *)
Inductive Completion (A : Type) : Type :=
| Return (a : A)
| Throw (e : JsError).

Arguments Return {A} a.
Arguments Throw {A} e.

(** ** [JSON.parse]

    The built-in, over the JSON grammar of ECMA-404: insignificant white
    space, the three literals, numbers, strings with their escapes, arrays
    and objects (a repeated key keeps its last value).  The parser is a
    recursive descent over the text; [fuel] bounds the nesting depth plus
    the number of items, both at most the length of the text. *)

Module JSON.

Definition is_ws (c : ascii) : bool :=
  match nat_of_ascii c with
  | 32 | 9 | 10 | 13 => true
  | _ => false
  end.

Fixpoint skip_ws (s : string) : string :=
  match s with
  | String c r => if is_ws c then skip_ws r else s
  | EmptyString => s
  end.

(** The double quote. *)
Definition quote : ascii := ascii_of_nat 34.

Definition is_digit (c : ascii) : bool :=
  let n := nat_of_ascii c in (48 <=? n)%nat && (n <=? 57)%nat.

Definition hex_val (c : ascii) : option nat :=
  let n := nat_of_ascii c in
  if (48 <=? n)%nat && (n <=? 57)%nat then Some (n - 48)
  else if (65 <=? n)%nat && (n <=? 70)%nat then Some (n - 55)
  else if (97 <=? n)%nat && (n <=? 102)%nat then Some (n - 87)
  else None.

(** UTF-8 bytes of a code unit below 65536. *)
Definition utf8 (n : nat) (rest : string) : string :=
  if (n <? 128)%nat then String (ascii_of_nat n) rest
  else if (n <? 2048)%nat then
    String (ascii_of_nat (192 + n / 64))
      (String (ascii_of_nat (128 + n mod 64)) rest)
  else
    String (ascii_of_nat (224 + n / 4096))
      (String (ascii_of_nat (128 + (n / 64) mod 64))
         (String (ascii_of_nat (128 + n mod 64)) rest)).

(** The characters of a string literal after its opening quote, up to and
    including the closing quote. *)
Fixpoint string_body (s : string) : option (string * string) :=
  match s with
  | EmptyString => None
  | String c r =>
      if Ascii.eqb c quote then Some (EmptyString, r)
      else if Ascii.eqb c "\"%char then
        match r with
        | String e r1 =>
            let simple (b : nat) :=
              match string_body r1 with
              | Some (t, r') => Some (String (ascii_of_nat b) t, r')
              | None => None
              end in
            match nat_of_ascii e with
            | 34 => simple 34%nat
            | 92 => simple 92%nat
            | 47 => simple 47%nat
            | 98 => simple 8%nat
            | 102 => simple 12%nat
            | 110 => simple 10%nat
            | 114 => simple 13%nat
            | 116 => simple 9%nat
            | 117 =>
                match r1 with
                | String h1 (String h2 (String h3 (String h4 r5))) =>
                    match hex_val h1, hex_val h2, hex_val h3, hex_val h4,
                          string_body r5 with
                    | Some a, Some b, Some c', Some d, Some (t, r') =>
                        Some (utf8 (((a * 16 + b) * 16 + c') * 16 + d) t, r')
                    | _, _, _, _, _ => None
                    end
                | _ => None
                end
            | _ => None
            end
        | EmptyString => None
        end
      else if (nat_of_ascii c <? 32)%nat then None
      else match string_body r with
           | Some (t, r') => Some (String c t, r')
           | None => None
           end
  end.

(** The longest prefix of digits, and what follows it. *)
Fixpoint digits (s : string) : string * string :=
  match s with
  | String c r =>
      if is_digit c then let '(d, r') := digits r in (String c d, r')
      else (EmptyString, s)
  | EmptyString => (EmptyString, s)
  end.

(** A number literal: an optional minus sign; an integer part that is "0"
    or starts with a non-zero digit; an optional fraction, a dot and at
    least one digit; an optional exponent, "e" or "E", an optional sign and
    at least one digit. *)
Definition number (s : string) : option (string * string) :=
  let '(sign, s1) :=
    match s with
    | String "-"%char r => ("-", r)
    | _ => (EmptyString, s)
    end in
  let '(int, s2) := digits s1 in
  let int_ok :=
    match int with
    | EmptyString => false
    | String "0"%char (String _ _) => false
    | _ => true
    end in
  if negb int_ok then None else
  let frac :=
    match s2 with
    | String "."%char r =>
        let '(f, r') := digits r in
        if Js.truthy f then Some (String "."%char f, r') else None
    | _ => Some (EmptyString, s2)
    end in
  match frac with
  | None => None
  | Some (f, s3) =>
      let expo :=
        match s3 with
        | String e r =>
            if Ascii.eqb e "e"%char || Ascii.eqb e "E"%char then
              let '(sg, r1) :=
                match r with
                | String "+"%char r' => ("+", r')
                | String "-"%char r' => ("-", r')
                | _ => (EmptyString, r)
                end in
              let '(x, r2) := digits r1 in
              if Js.truthy x then Some (String e (sg +:+ x), r2) else None
            else Some (EmptyString, s3)
        | EmptyString => Some (EmptyString, s3)
        end in
      match expo with
      | None => None
      | Some (x, s4) => Some (sign +:+ int +:+ f +:+ x, s4)
      end
  end.

Definition keyword (k : string) (v : json) (s : string) : option (json * string) :=
  if String.prefix k s
  then Some (v, String.substring (String.length k) (String.length s - String.length k) s)
  else None.

Fixpoint value (fuel : nat) (s : string) : option (json * string) :=
  match fuel with
  | O => None
  | S fuel' =>
      match skip_ws s with
      | String c r =>
          match nat_of_ascii c with
          | 110 => keyword "null" JNull (String c r)
          | 116 => keyword "true" (JBool true) (String c r)
          | 102 => keyword "false" (JBool false) (String c r)
          | 34 =>
              match string_body r with
              | Some (t, r') => Some (JString t, r')
              | None => None
              end
          | 91 =>
              match skip_ws r with
              | String "]"%char r' => Some (JArray [], r')
              | _ =>
                  match elements fuel' r with
                  | Some (vs, r') => Some (JArray vs, r')
                  | None => None
                  end
              end
          | 123 =>
              match skip_ws r with
              | String "}"%char r' => Some (JObject [], r')
              | _ =>
                  match members fuel' r [] with
                  | Some (o, r') => Some (JObject o, r')
                  | None => None
                  end
              end
          | _ =>
              match number (String c r) with
              | Some (n, r') => Some (JNumber n, r')
              | None => None
              end
          end
      | EmptyString => None
      end
  end
with elements (fuel : nat) (s : string) : option (list json * string) :=
  match fuel with
  | O => None
  | S fuel' =>
      match value fuel' s with
      | Some (v, r) =>
          match skip_ws r with
          | String ","%char r' =>
              match elements fuel' r' with
              | Some (vs, r'') => Some (v :: vs, r'')
              | None => None
              end
          | String "]"%char r' => Some ([v], r')
          | _ => None
          end
      | None => None
      end
  end
with members (fuel : nat) (s : string) (acc : Obj.t) : option (Obj.t * string) :=
  match fuel with
  | O => None
  | S fuel' =>
      match skip_ws s with
      | String c r =>
          if negb (Ascii.eqb c quote) then None else
          match string_body r with
          | Some (k, r1) =>
              match skip_ws r1 with
              | String ":"%char r2 =>
                  match value fuel' r2 with
                  | Some (v, r3) =>
                      let acc' := Obj.set k v acc in
                      match skip_ws r3 with
                      | String ","%char r4 => members fuel' r4 acc'
                      | String "}"%char r4 => Some (acc', r4)
                      | _ => None
                      end
                  | None => None
                  end
              | _ => None
              end
          | None => None
          end
      | EmptyString => None
      end
  end.

(** [JSON.parse(text)]: the value, or a thrown [SyntaxError]. *)
Definition parse (text : string) : Completion json :=
  match value (2 * String.length text + 2) text with
  | Some (v, rest) =>
      match skip_ws rest with
      | EmptyString => Return v
      | String _ _ => Throw (SyntaxError "Unexpected non-whitespace character after JSON")
      end
  | None => Throw (SyntaxError "Unexpected token or end of JSON input")
  end.

End JSON.

(** ** The request client: [src/services/geminiService.ts] *)

Module Gemini.

(** The SDK's schema description ([Type.STRING], [Type.NUMBER],
    [Type.ARRAY], [Type.OBJECT]). *)
Inductive Schema : Type :=
| STRING (description : option string)
| NUMBER (description : option string)
| ARRAY (items : Schema)
| OBJECT (properties : list (string * Schema)) (required : list string).

Definition str : Schema := STRING None.
Definition described (d : string) : Schema := STRING (Some d).

Definition reportSchema : Schema :=
  OBJECT
    [ ("meetingType", described "The type of meeting (e.g., Investor Meeting, Strategy Sync)");
      ("confidence", NUMBER (Some "Confidence score of the analysis (0-100)"));
      ("sentiment", described "Overall detected sentiment (e.g., Highly Optimistic)");
      ("focusArea", described "Primary focus area (e.g., Revenue Growth)");
      ("summary",
        OBJECT
          [ ("overview", str); ("objective", str);
            ("strategicImportance", str); ("criticalDecision", str) ]
          [ "overview"; "objective"; "strategicImportance"; "criticalDecision" ]);
      ("strategicIntelligence",
        OBJECT
          [ ("stakeholders",
              ARRAY (OBJECT
                       [ ("role", str);
                         ("sentiment", described "e.g., Supportive, Neutral, Champion") ]
                       []));
            ("powerDynamics", str);
            ("incentiveAnalysis", str) ]
          []);
      ("riskIdentification",
        OBJECT
          [ ("risks",
              ARRAY (OBJECT
                       [ ("type", described "e.g., Strategic, Political, Execution");
                         ("title", str);
                         ("description", str) ]
                       []));
            ("hiddenObjection", str) ]
          []);
      ("talkingPoints",
        OBJECT
          [ ("points",
              ARRAY (OBJECT [ ("title", str); ("description", str) ] []));
            ("framingStrategy", str) ]
          []);
      ("objections",
        ARRAY (OBJECT [ ("question", str); ("response", str) ] []));
      ("nextSteps",
        ARRAY (OBJECT
                 [ ("action", str); ("ownership", str); ("timeline", str);
                   ("status", described "e.g., PENDING, QUEUED") ]
                 []));
      ("executiveBrief", described "A 60-second verbal script for the executive");
      ("coverImagePrompt", described "A detailed prompt for generating a cover image") ]
    [ "meetingType"; "confidence"; "sentiment"; "focusArea"; "summary";
      "strategicIntelligence"; "riskIdentification"; "talkingPoints";
      "objections"; "nextSteps"; "executiveBrief"; "coverImagePrompt" ].

(** One element of the [files] argument. *)
Record FilePayload : Type := { data : string; mimeType : string }.

(** One element of [parts]. *)
Inductive Part : Type :=
| text (t : string)
| inlineData (d : string) (m : string).

Record Content : Type := { parts : list Part }.

Record Config : Type := { responseMimeType : string; responseSchema : Schema }.

(** The argument of [ai.models.generateContent]. *)
Record Request : Type :=
  { model : string; contents : list Content; config : Config }.

(** How the promise of [ai.models.generateContent] settles.  A fulfilled
    response exposes [response.text], a string or [undefined]; a rejection
    carries the SDK's error (no API key, network failure, quota, a non-2xx
    status). *)
Inductive Outcome : Type :=
| Fulfilled (response_text : option string)
| Rejected (e : JsError).

(** An [async] call suspended at its [await]: the request it has issued and
    the rest of its body, which settles its own promise. *)
Record Awaiting (A : Type) : Type :=
  { request : Request; resume : Outcome -> Completion A }.

Arguments request {A} _.
Arguments resume {A} _ _.

Definition nl : string := String (ascii_of_nat 10) EmptyString.

(** The template literal of the instruction part. *)
Definition instruction (notes slides context : string) : string :=
  "Analyze the following meeting materials and provide structured intelligence." +:+ nl +:+
  "    " +:+ nl +:+
  "    Notes: " +:+ notes +:+ nl +:+
  "    Slides Content: " +:+ slides +:+ nl +:+
  "    Additional Context: " +:+ context +:+ nl +:+
  "    " +:+ nl +:+
  "    Return a detailed JSON report according to the schema.".

(** [file.data.split(',')[1] || file.data] *)
Definition attachmentData (d : string) : string :=
  Js.or_else (Js.split ","%char d !! 1%nat) d.

(** The body of the [for ... of] loop: [parts.push({ inlineData: ... })]. *)
Definition push (ps : list Part) (file : FilePayload) : list Part :=
  ps ++ [inlineData (attachmentData (data file)) (mimeType file)].

Definition generateMeetingIntelligence
    (notes slides context : string) (files : list FilePayload) : Awaiting json :=
  let model := "gemini-3.1-pro-preview" in
  let parts := fold_left push files [text (instruction notes slides context)] in
  {| request :=
       {| model := model;
          contents := [ {| parts := parts |} ];
          config := {| responseMimeType := "application/json";
                       responseSchema := reportSchema |} |};
     resume := fun outcome =>
       match outcome with
       | Rejected e => Throw e
       | Fulfilled response_text => JSON.parse (Js.or_else response_text "{}")
       end |}.

End Gemini.

(** ** Browser built-ins used by the component *)

Module Browser.

(** A [File] of an [<input type="file">] selection. *)
Record File : Type :=
  { file_name : string; file_type : string; file_bytes : string }.

Definition base64_char (n : nat) : ascii :=
  if (n <? 26)%nat then ascii_of_nat (65 + n)
  else if (n <? 52)%nat then ascii_of_nat (97 + (n - 26))
  else if (n <? 62)%nat then ascii_of_nat (48 + (n - 52))
  else if (n =? 62)%nat then "+"%char
  else "/"%char.

(** RFC 4648 base64 with padding. *)
Fixpoint base64 (bytes : string) : string :=
  match bytes with
  | EmptyString => EmptyString
  | String a EmptyString =>
      let x := nat_of_ascii a in
      String (base64_char (x / 4))
        (String (base64_char (x mod 4 * 16)) "==")
  | String a (String b EmptyString) =>
      let x := nat_of_ascii a in
      let y := nat_of_ascii b in
      String (base64_char (x / 4))
        (String (base64_char (x mod 4 * 16 + y / 16))
           (String (base64_char (y mod 16 * 4)) "="))
  | String a (String b (String c rest)) =>
      let x := nat_of_ascii a in
      let y := nat_of_ascii b in
      let z := nat_of_ascii c in
      String (base64_char (x / 4))
        (String (base64_char (x mod 4 * 16 + y / 16))
           (String (base64_char (y mod 16 * 4 + z / 64))
              (String (base64_char (z mod 64)) (base64 rest))))
  end.

(** The result of [FileReader.readAsDataURL], as the File API packages it. *)
Definition readAsDataURL (f : File) : string :=
  "data:" +:+ file_type f +:+ ";base64," +:+ base64 (file_bytes f).

(** [s.substr(start, length)] for non-negative arguments. *)
Definition substr (start len : nat) (s : string) : string :=
  String.substring start len s.

End Browser.

(** ** The component: [src/App.tsx] *)

Module App.

Import Browser.

Inductive Tab : Type := GENERATE | REPORTS.
Inductive Step : Type := INPUT | ANALYZING | REPORT.

(** An element of the [files] state. *)
Record UploadedFile : Type := { name : string; type : string; data : string }.

Definition obj (props : list (string * json)) : json := JObject props.
Definition str (v : string) : json := JString v.

Definition MOCK_REPORT : Obj.t :=
  [ ("id", str "mock-1");
    ("date", str "Oct 12, 2024");
    ("title", str "Strategy Sync - Q4 Growth");
    ("meetingType", str "Strategic Planning");
    ("confidence", JNumber "98");
    ("sentiment", str "Positive");
    ("focusArea", str "Expansion");
    ("summary", obj
      [ ("overview", str "High-level alignment on Q4 expansion into EMEA markets.");
        ("objective", str "Finalize budget allocation for regional hubs.");
        ("strategicImportance", str "Critical for meeting annual revenue targets.");
        ("criticalDecision", str "Approved $2.4M for Berlin and Dubai offices.") ]);
    ("strategicIntelligence", obj
      [ ("stakeholders", JArray
          [ obj [ ("role", str "CEO"); ("sentiment", str "Champion") ];
            obj [ ("role", str "CFO"); ("sentiment", str "Supportive") ];
            obj [ ("role", str "Head of Sales"); ("sentiment", str "Neutral") ] ]);
        ("powerDynamics", str "Strong alignment between executive leadership; sales team requires more incentive clarity.");
        ("incentiveAnalysis", str "Performance bonuses tied to regional launch speed.") ]);
    ("riskIdentification", obj
      [ ("risks", JArray
          [ obj [ ("type", str "Strategic"); ("title", str "Market Saturation");
                  ("description", str "Competitor X recently launched similar services in Berlin.") ];
            obj [ ("type", str "Political"); ("title", str "Regulatory Hurdles");
                  ("description", str "New data privacy laws in UAE might delay launch.") ] ]);
        ("hiddenObjection", str "The CFO is concerned about the long-term lease commitments in Dubai.") ]);
    ("talkingPoints", obj
      [ ("points", JArray
          [ obj [ ("title", str "Market Opportunity");
                  ("description", str "EMEA represents a $50B untapped market for our segment.") ];
            obj [ ("title", str "Operational Readiness");
                  ("description", str "Core team is already identified and ready to relocate.") ] ]);
        ("framingStrategy", str ("Focus on " +:+ String (ascii_of_nat 34) "First-Mover Advantage" +:+ String (ascii_of_nat 34) " to counter cost concerns.")) ]);
    ("objections", JArray
      [ obj [ ("question", str "Why Dubai now?");
              ("response", str "Strategic gateway to MENA region with favorable tax structures.") ] ]);
    ("nextSteps", JArray
      [ obj [ ("action", str "Sign lease agreements"); ("ownership", str "Legal");
              ("timeline", str "Oct 20"); ("status", str "PENDING") ] ]);
    ("executiveBrief", str "We are moving forward with the EMEA expansion. Budget is approved. Focus is on speed to market. Risks are manageable but require close monitoring of regional regulations.");
    ("coverImagePrompt", str "A futuristic office skyline connecting Berlin and Dubai with glowing digital lines, professional, cinematic lighting.") ].

(** A call of [startAnalysis] suspended at its [await]: the variables its
    closure holds and the promise it waits for. *)
Record Analysis : Type :=
  { closure_files : list UploadedFile;
    closure_interval : nat;
    awaited : Gemini.Awaiting json }.

(** The [useState] cells of the component, followed by what the browser
    holds for it: file readers still reading, live timers, calls in flight,
    and what has gone out to the network, the alert box and the console. *)
Record AppState : Type :=
  { activeTab : Tab;
    step : Step;
    notes : string;
    context : string;
    files : list UploadedFile;
    report : option Obj.t;
    reportsHistory : list Obj.t;
    analysisProgress : Q;
    currentAnalysisStep : nat;
    readers : list File;
    intervals : gmap nat nat;
    nextTimer : nat;
    timeouts : nat;
    analyses : list Analysis;
    outbox : list Gemini.Request;
    alerts : list string;
    console : list (string * JsError) }.

(** [intervals] maps the id of each live [setInterval] timer to the value of
    [currentAnalysisStep] its callback closed over; [timeouts] counts the
    pending [setTimeout(() => setStep('REPORT'), 1000)] callbacks. *)

Definition with_activeTab (v : Tab) (s : AppState) : AppState :=
  {| activeTab := v; step := step s; notes := notes s; context := context s;
     files := files s; report := report s;
     reportsHistory := reportsHistory s;
     analysisProgress := analysisProgress s;
     currentAnalysisStep := currentAnalysisStep s; readers := readers s;
     intervals := intervals s; nextTimer := nextTimer s;
     timeouts := timeouts s; analyses := analyses s; outbox := outbox s;
     alerts := alerts s; console := console s |}.

Definition with_step (v : Step) (s : AppState) : AppState :=
  {| activeTab := activeTab s; step := v; notes := notes s;
     context := context s; files := files s; report := report s;
     reportsHistory := reportsHistory s;
     analysisProgress := analysisProgress s;
     currentAnalysisStep := currentAnalysisStep s; readers := readers s;
     intervals := intervals s; nextTimer := nextTimer s;
     timeouts := timeouts s; analyses := analyses s; outbox := outbox s;
     alerts := alerts s; console := console s |}.

Definition with_notes (v : string) (s : AppState) : AppState :=
  {| activeTab := activeTab s; step := step s; notes := v;
     context := context s; files := files s; report := report s;
     reportsHistory := reportsHistory s;
     analysisProgress := analysisProgress s;
     currentAnalysisStep := currentAnalysisStep s; readers := readers s;
     intervals := intervals s; nextTimer := nextTimer s;
     timeouts := timeouts s; analyses := analyses s; outbox := outbox s;
     alerts := alerts s; console := console s |}.

Definition with_context (v : string) (s : AppState) : AppState :=
  {| activeTab := activeTab s; step := step s; notes := notes s;
     context := v; files := files s; report := report s;
     reportsHistory := reportsHistory s;
     analysisProgress := analysisProgress s;
     currentAnalysisStep := currentAnalysisStep s; readers := readers s;
     intervals := intervals s; nextTimer := nextTimer s;
     timeouts := timeouts s; analyses := analyses s; outbox := outbox s;
     alerts := alerts s; console := console s |}.

Definition with_files (v : list UploadedFile) (s : AppState) : AppState :=
  {| activeTab := activeTab s; step := step s; notes := notes s;
     context := context s; files := v; report := report s;
     reportsHistory := reportsHistory s;
     analysisProgress := analysisProgress s;
     currentAnalysisStep := currentAnalysisStep s; readers := readers s;
     intervals := intervals s; nextTimer := nextTimer s;
     timeouts := timeouts s; analyses := analyses s; outbox := outbox s;
     alerts := alerts s; console := console s |}.

Definition with_report (v : option Obj.t) (s : AppState) : AppState :=
  {| activeTab := activeTab s; step := step s; notes := notes s;
     context := context s; files := files s; report := v;
     reportsHistory := reportsHistory s;
     analysisProgress := analysisProgress s;
     currentAnalysisStep := currentAnalysisStep s; readers := readers s;
     intervals := intervals s; nextTimer := nextTimer s;
     timeouts := timeouts s; analyses := analyses s; outbox := outbox s;
     alerts := alerts s; console := console s |}.

Definition with_reportsHistory (v : list Obj.t) (s : AppState) : AppState :=
  {| activeTab := activeTab s; step := step s; notes := notes s;
     context := context s; files := files s; report := report s;
     reportsHistory := v; analysisProgress := analysisProgress s;
     currentAnalysisStep := currentAnalysisStep s; readers := readers s;
     intervals := intervals s; nextTimer := nextTimer s;
     timeouts := timeouts s; analyses := analyses s; outbox := outbox s;
     alerts := alerts s; console := console s |}.

Definition with_analysisProgress (v : Q) (s : AppState) : AppState :=
  {| activeTab := activeTab s; step := step s; notes := notes s;
     context := context s; files := files s; report := report s;
     reportsHistory := reportsHistory s; analysisProgress := v;
     currentAnalysisStep := currentAnalysisStep s; readers := readers s;
     intervals := intervals s; nextTimer := nextTimer s;
     timeouts := timeouts s; analyses := analyses s; outbox := outbox s;
     alerts := alerts s; console := console s |}.

Definition with_currentAnalysisStep (v : nat) (s : AppState) : AppState :=
  {| activeTab := activeTab s; step := step s; notes := notes s;
     context := context s; files := files s; report := report s;
     reportsHistory := reportsHistory s;
     analysisProgress := analysisProgress s; currentAnalysisStep := v;
     readers := readers s; intervals := intervals s;
     nextTimer := nextTimer s; timeouts := timeouts s;
     analyses := analyses s; outbox := outbox s; alerts := alerts s;
     console := console s |}.

Definition with_readers (v : list File) (s : AppState) : AppState :=
  {| activeTab := activeTab s; step := step s; notes := notes s;
     context := context s; files := files s; report := report s;
     reportsHistory := reportsHistory s;
     analysisProgress := analysisProgress s;
     currentAnalysisStep := currentAnalysisStep s; readers := v;
     intervals := intervals s; nextTimer := nextTimer s;
     timeouts := timeouts s; analyses := analyses s; outbox := outbox s;
     alerts := alerts s; console := console s |}.

Definition with_intervals (v : gmap nat nat) (s : AppState) : AppState :=
  {| activeTab := activeTab s; step := step s; notes := notes s;
     context := context s; files := files s; report := report s;
     reportsHistory := reportsHistory s;
     analysisProgress := analysisProgress s;
     currentAnalysisStep := currentAnalysisStep s; readers := readers s;
     intervals := v; nextTimer := nextTimer s; timeouts := timeouts s;
     analyses := analyses s; outbox := outbox s; alerts := alerts s;
     console := console s |}.

Definition with_nextTimer (v : nat) (s : AppState) : AppState :=
  {| activeTab := activeTab s; step := step s; notes := notes s;
     context := context s; files := files s; report := report s;
     reportsHistory := reportsHistory s;
     analysisProgress := analysisProgress s;
     currentAnalysisStep := currentAnalysisStep s; readers := readers s;
     intervals := intervals s; nextTimer := v; timeouts := timeouts s;
     analyses := analyses s; outbox := outbox s; alerts := alerts s;
     console := console s |}.

Definition with_timeouts (v : nat) (s : AppState) : AppState :=
  {| activeTab := activeTab s; step := step s; notes := notes s;
     context := context s; files := files s; report := report s;
     reportsHistory := reportsHistory s;
     analysisProgress := analysisProgress s;
     currentAnalysisStep := currentAnalysisStep s; readers := readers s;
     intervals := intervals s; nextTimer := nextTimer s; timeouts := v;
     analyses := analyses s; outbox := outbox s; alerts := alerts s;
     console := console s |}.

Definition with_analyses (v : list Analysis) (s : AppState) : AppState :=
  {| activeTab := activeTab s; step := step s; notes := notes s;
     context := context s; files := files s; report := report s;
     reportsHistory := reportsHistory s;
     analysisProgress := analysisProgress s;
     currentAnalysisStep := currentAnalysisStep s; readers := readers s;
     intervals := intervals s; nextTimer := nextTimer s;
     timeouts := timeouts s; analyses := v; outbox := outbox s;
     alerts := alerts s; console := console s |}.

Definition with_outbox (v : list Gemini.Request) (s : AppState) : AppState :=
  {| activeTab := activeTab s; step := step s; notes := notes s;
     context := context s; files := files s; report := report s;
     reportsHistory := reportsHistory s;
     analysisProgress := analysisProgress s;
     currentAnalysisStep := currentAnalysisStep s; readers := readers s;
     intervals := intervals s; nextTimer := nextTimer s;
     timeouts := timeouts s; analyses := analyses s; outbox := v;
     alerts := alerts s; console := console s |}.

Definition with_alerts (v : list string) (s : AppState) : AppState :=
  {| activeTab := activeTab s; step := step s; notes := notes s;
     context := context s; files := files s; report := report s;
     reportsHistory := reportsHistory s;
     analysisProgress := analysisProgress s;
     currentAnalysisStep := currentAnalysisStep s; readers := readers s;
     intervals := intervals s; nextTimer := nextTimer s;
     timeouts := timeouts s; analyses := analyses s; outbox := outbox s;
     alerts := v; console := console s |}.

Definition with_console (v : list (string * JsError)) (s : AppState) : AppState :=
  {| activeTab := activeTab s; step := step s; notes := notes s;
     context := context s; files := files s; report := report s;
     reportsHistory := reportsHistory s;
     analysisProgress := analysisProgress s;
     currentAnalysisStep := currentAnalysisStep s; readers := readers s;
     intervals := intervals s; nextTimer := nextTimer s;
     timeouts := timeouts s; analyses := analyses s; outbox := outbox s;
     alerts := alerts s; console := v |}.

(** The state after the first render. *)
Definition initial : AppState :=
  {| activeTab := GENERATE; step := INPUT; notes := EmptyString;
     context := EmptyString;
     files := []; report := None; reportsHistory := [MOCK_REPORT];
     analysisProgress := 0%Q; currentAnalysisStep := 0;
     readers := []; intervals := ∅; nextTimer := 1; timeouts := 0;
     analyses := []; outbox := []; alerts := []; console := [] |}.

(** *** Handlers

    A handler runs against the state and completes, normally or with a
    thrown error. *)

Definition M (A : Type) : Type := AppState -> Completion A * AppState.

Definition ret {A : Type} (a : A) : M A := fun st => (Return a, st).

Definition bind {A B : Type} (m : M A) (f : A -> M B) : M B :=
  fun st =>
    match m st with
    | (Return a, st') => f a st'
    | (Throw e, st') => (Throw e, st')
    end.

Notation "x <- m ;; k" := (bind m (fun x => k))
  (at level 100, m at level 99, right associativity).
Notation "m ;; k" := (bind m (fun _ => k))
  (at level 100, right associativity).

Definition get : M AppState := fun st => (Return st, st).
Definition update (f : AppState -> AppState) : M unit := fun st => (Return tt, f st).

(** [await p]: the value of a fulfilled promise; a rejection is rethrown. *)
Definition await {A : Type} (p : Completion A) : M A := fun st => (p, st).

(** [try { body } catch (error) { handler } finally { final }] *)
Definition try_catch_finally (body : M unit) (handler : JsError -> M unit)
    (final : M unit) : M unit :=
  fun st =>
    let '(c, st1) :=
      match body st with
      | (Return a, st') => (Return a, st')
      | (Throw e, st') => handler e st'
      end in
    match final st1 with
    | (Return _, st2) => (c, st2)
    | (Throw e, st2) => (Throw e, st2)
    end.

(** The state setters; [setReportsHistory] and [setFiles] are also called
    with an updater function of the latest value. *)
Definition setActiveTab (v : Tab) : M unit := update (with_activeTab v).
Definition setStep (v : Step) : M unit := update (with_step v).
Definition setNotes (v : string) : M unit := update (with_notes v).
Definition setContext (v : string) : M unit := update (with_context v).
Definition setFiles (f : list UploadedFile -> list UploadedFile) : M unit :=
  update (fun st => with_files (f (files st)) st).
Definition setReport (v : option Obj.t) : M unit := update (with_report v).
Definition setReportsHistory (f : list Obj.t -> list Obj.t) : M unit :=
  update (fun st => with_reportsHistory (f (reportsHistory st)) st).
Definition setAnalysisProgress (v : Q) : M unit := update (with_analysisProgress v).
Definition setCurrentAnalysisStep (v : nat) : M unit :=
  update (with_currentAnalysisStep v).

(** Browser calls. *)
Definition setInterval (closed_step : nat) : M nat :=
  fun st =>
    let id := nextTimer st in
    (Return id, with_nextTimer (S id) (with_intervals (<[id := closed_step]> (intervals st)) st)).

Definition clearInterval (id : nat) : M unit :=
  update (fun st => with_intervals (delete id (intervals st)) st).

Definition setTimeout_showReport : M unit :=
  update (fun st => with_nextTimer (S (nextTimer st)) (with_timeouts (S (timeouts st)) st)).

Definition alert (message : string) : M unit :=
  update (fun st => with_alerts (alerts st ++ [message]) st).

Definition console_error (label : string) (error : JsError) : M unit :=
  update (fun st => with_console (console st ++ [(label, error)]) st).

Definition readFile (f : File) : M unit :=
  update (fun st => with_readers (readers st ++ [f]) st).

(** [handleFileUpload], up to [reader.readAsDataURL(file)]. *)
Definition handleFileUpload (e_target_files : list File) (type : string) : M unit :=
  match e_target_files !! 0%nat with
  | None => ret tt
  | Some file => readFile file
  end.

(** [reader.onload] of [handleFileUpload]. *)
Definition reader_onload (file : File) (event_target_result : string) : M unit :=
  let base64 := event_target_result in
  setFiles (fun prev =>
    prev ++ [ {| name := file_name file; type := file_type file; data := base64 |} ]).

(** [{...result}]: the own enumerable properties of a value; those of a
    string are its characters, here its bytes. *)
Fixpoint indexed (i : nat) (vs : list json) : Obj.t :=
  match vs with
  | [] => []
  | v :: vs' => (Js.index_key i, v) :: indexed (S i) vs'
  end.

Definition spread (v : json) : Obj.t :=
  match v with
  | JObject props => props
  | JArray items => indexed 0 items
  | JString t =>
      indexed 0 (map (fun c => JString (String c EmptyString)) (list_ascii_of_string t))
  | JNull | JBool _ | JNumber _ => []
  end.

(** [files[0]?.name.split('.')[0] || 'Untitled Session'] *)
Definition sessionTitle (files : list UploadedFile) : string :=
  Js.or_else
    (match files !! 0%nat with
     | Some f => Js.split "."%char (name f) !! 0%nat
     | None => None
     end)
    "Untitled Session".

(** The [finalReport] object literal.  [random36] is the text of
    [Math.random().toString(36)] and [today] that of
    [new Date().toLocaleDateString('en-US', ...)]. *)
Definition finalReport (result : json) (random36 today : string)
    (files : list UploadedFile) : Obj.t :=
  Obj.set "title" (JString (sessionTitle files))
    (Obj.set "date" (JString today)
       (Obj.set "id" (JString (substr 2 9 random36))
          (spread result))).

(** The callback given to [setInterval]: [interval] is its own timer and
    [closed_step] the [currentAnalysisStep] of the render that created it;
    [random] is the value of [Math.random()]. *)
Definition interval_callback (interval closed_step : nat) (random : Q) : M unit :=
  st <- get;;
  let prev := analysisProgress st in
  if Qle_bool 100 prev then
    clearInterval interval;;
    setAnalysisProgress 100
  else
    let next := Qplus prev (Qmult random 15) in
    (if negb (Qle_bool next 25) && Nat.eqb closed_step 0
     then setCurrentAnalysisStep 1 else ret tt);;
    (if negb (Qle_bool next 50) && Nat.eqb closed_step 1
     then setCurrentAnalysisStep 2 else ret tt);;
    (if negb (Qle_bool next 75) && Nat.eqb closed_step 2
     then setCurrentAnalysisStep 3 else ret tt);;
    setAnalysisProgress next.

Definition toPayload (f : UploadedFile) : Gemini.FilePayload :=
  {| Gemini.data := data f; Gemini.mimeType := type f |}.

(** [startAnalysis], up to its [await]: the call of
    [generateMeetingIntelligence] has issued its request. *)
Definition startAnalysis : M unit :=
  render <- get;;
  setStep ANALYZING;;
  setAnalysisProgress 0;;
  setCurrentAnalysisStep 0;;
  interval <- setInterval (currentAnalysisStep render);;
  let call :=
    Gemini.generateMeetingIntelligence
      (notes render) EmptyString (context render) (map toPayload (files render)) in
  update (fun st => with_outbox (outbox st ++ [Gemini.request call]) st);;
  update (fun st =>
    with_analyses
      (analyses st ++ [ {| closure_files := files render;
                           closure_interval := interval;
                           awaited := call |} ]) st).

(** [startAnalysis], from its [await] on, when the request has settled. *)
Definition startAnalysis_resume (a : Analysis) (outcome : Gemini.Outcome)
    (random36 today : string) : M unit :=
  try_catch_finally
    (result <- await (Gemini.resume (awaited a) outcome);;
     let finalReport := finalReport result random36 today (closure_files a) in
     setReport (Some finalReport);;
     setReportsHistory (fun prev => finalReport :: prev);;
     setAnalysisProgress 100;;
     setCurrentAnalysisStep 3;;
     setTimeout_showReport)
    (fun error =>
       console_error "Analysis failed:" error;;
       setStep INPUT;;
       alert "Failed to generate report. Please try again.")
    (clearInterval (closure_interval a)).

(** The [onClick] handlers of the sidebar and of the archive table. *)
Definition newSession : M unit :=
  setActiveTab GENERATE;;
  setStep INPUT;;
  setReport None;;
  setFiles (fun _ => []);;
  setNotes EmptyString;;
  setContext EmptyString.

Definition navGenerate : M unit := setActiveTab GENERATE;; setStep INPUT.
Definition navReports : M unit := setActiveTab REPORTS;; setStep INPUT.

Definition openRecent (item : Obj.t) : M unit :=
  setReport (Some item);;
  setStep REPORT;;
  setActiveTab REPORTS.

Definition viewReport (item : Obj.t) : M unit :=
  setReport (Some item);;
  setStep REPORT.

(** *** The event loop

    What can happen to the component: a change of a file input, the end of
    a file read, typing in the context area, the clicks, the settlement of
    a request together with the values [Math.random] and [Date] then give,
    and the firing of a timer.  The click on the copy button of the report
    detail, which writes the image prompt to the clipboard and sets no
    state, is not one of them. *)

Inductive Event : Type :=
| FileInputChange (selection : list File) (kind : string)
| ReaderLoaded (k : nat)
| ReaderFailed (k : nat)
| ContextInput (value : string)
| GenerateClick
| RequestSettled (k : nat) (outcome : Gemini.Outcome) (random36 today : string)
| IntervalFired (id : nat) (random : Q)
| TimeoutFired
| NewSessionClick
| NavGenerateClick
| NavReportsClick
| RecentClick (i : nat)
| ViewReportClick (i : nat).

(** [l] without its [k]-th element. *)
Definition remove_nth {A : Type} (k : nat) (l : list A) : list A :=
  take k l ++ drop (S k) l.

(** The task the browser runs for an event.  An event whose target does not
    exist (a reader, a call or a timer that is not pending, a row that is
    not rendered) runs nothing.  Events are not restricted to the controls
    the current view shows: what is proved for every sequence of events
    holds for those a user can produce. *)
Definition dispatch (ev : Event) : M unit :=
  st <- get;;
  match ev with
  | FileInputChange selection kind => handleFileUpload selection kind
  | ReaderLoaded k =>
      match readers st !! k with
      | Some file =>
          update (fun st => with_readers (remove_nth k (readers st)) st);;
          reader_onload file (readAsDataURL file)
      | None => ret tt
      end
  | ReaderFailed k =>
      update (fun st => with_readers (remove_nth k (readers st)) st)
  | ContextInput value => setContext value
  | GenerateClick => startAnalysis
  | RequestSettled k outcome random36 today =>
      match analyses st !! k with
      | Some a =>
          update (fun st => with_analyses (remove_nth k (analyses st)) st);;
          startAnalysis_resume a outcome random36 today
      | None => ret tt
      end
  | IntervalFired id random =>
      match intervals st !! id with
      | Some closed_step => interval_callback id closed_step random
      | None => ret tt
      end
  | TimeoutFired =>
      match timeouts st with
      | S n => update (with_timeouts n);; setStep REPORT
      | O => ret tt
      end
  | NewSessionClick => newSession
  | NavGenerateClick => navGenerate
  | NavReportsClick => navReports
  | RecentClick i =>
      match take 5 (reportsHistory st) !! i with
      | Some item => openRecent item
      | None => ret tt
      end
  | ViewReportClick i =>
      match reportsHistory st !! i with
      | Some item => viewReport item
      | None => ret tt
      end
  end.

Definition react (st : AppState) (ev : Event) : AppState := snd (dispatch ev st).

(** The state after a sequence of events, oldest first. *)
Definition run (st : AppState) (evs : list Event) : AppState :=
  fold_left react evs st.

Definition reachable (st : AppState) : Prop := exists evs, st = run initial evs.

End App.

(** ** Vocabulary of the properties *)

Module Spec.

Import App.

(** The attachment the loop pushes for one file. *)
Definition attachment (f : Gemini.FilePayload) : Gemini.Part :=
  Gemini.inlineData (Gemini.attachmentData (Gemini.data f)) (Gemini.mimeType f).

(** What the specification asks to be transmitted: the text after the first
    comma of a data URI; a string that has no comma has no prefix. *)
Fixpoint afterPrefix (d : string) : option string :=
  match d with
  | EmptyString => None
  | String c r => if Ascii.eqb c ","%char then Some r else afterPrefix r
  end.

Definition withoutPrefix (d : string) : string :=
  match afterPrefix d with
  | Some payload => payload
  | None => d
  end.

(** The report a settlement stores when its session succeeds, that is when
    the awaited call returns a result. *)
Definition completes (st : AppState) (ev : Event) : option Obj.t :=
  match ev with
  | RequestSettled k outcome random36 today =>
      match analyses st !! k with
      | Some a =>
          match Gemini.resume (awaited a) outcome with
          | Return result =>
              Some (finalReport result random36 today (closure_files a))
          | Throw _ => None
          end
      | None => None
      end
  | _ => None
  end.

(** The reports of the successful sessions of a run, in order of completion. *)
Fixpoint completed (st : AppState) (evs : list Event) : list Obj.t :=
  match evs with
  | [] => []
  | ev :: evs' =>
      match completes st ev with
      | Some rep => rep :: completed (react st ev) evs'
      | None => completed (react st ev) evs'
      end
  end.

(** A value conforms to a schema when it has the schema's type, an array's
    items conform to the item schema, and an object has every required
    property and conforming values for the declared properties it has. *)
Fixpoint conforms (sch : Gemini.Schema) (v : json) : bool :=
  match sch, v with
  | Gemini.STRING _, JString _ => true
  | Gemini.NUMBER _, JNumber _ => true
  | Gemini.ARRAY items, JArray vs => forallb (conforms items) vs
  | Gemini.OBJECT properties required, JObject o =>
      forallb (fun k => match Obj.get k o with Some _ => true | None => false end)
        required
      && (fix each (ps : list (string * Gemini.Schema)) : bool :=
            match ps with
            | [] => true
            | (k, sk) :: ps' =>
                match Obj.get k o with
                | Some vk => conforms sk vk
                | None => true
                end && each ps'
            end) properties
  | _, _ => false
  end.

(** The keys the component sets itself. *)
Definition local_key (k : string) : bool :=
  String.eqb k "id" || String.eqb k "date" || String.eqb k "title".

(** The part of a name before its first dot. *)
Fixpoint beforeFirstDot (name : string) : string :=
  match name with
  | EmptyString => EmptyString
  | String c r => if Ascii.eqb c "."%char then EmptyString else String c (beforeFirstDot r)
  end.

(** A name with its extension removed: the part before its last dot, or the
    whole name when it has no dot. *)
Fixpoint baseName (name : string) : string :=
  match name with
  | EmptyString => EmptyString
  | String c r =>
      if Ascii.eqb c "."%char && Js.lacks "."%char r then EmptyString
      else String c (baseName r)
  end.

(** The title the specification describes. *)
Definition describedTitle (files : list UploadedFile) : string :=
  match files with
  | [] => "Untitled Session"
  | f :: _ => baseName (name f)
  end.

(** The call [startAnalysis] makes: the slides argument is the empty string. *)
Definition issued (r : Gemini.Request) : Prop :=
  exists (notes context : string) (files : list UploadedFile),
    r = Gemini.request
          (Gemini.generateMeetingIntelligence notes EmptyString context
             (map toPayload files)).

(** Well-formed states: every suspended call is a call of
    [generateMeetingIntelligence] made by [startAnalysis], and every timer
    id in use was handed out before. *)
Record wf (st : AppState) : Prop :=
  { wf_analyses :
      forall a, a ∈ analyses st ->
        (closure_interval a < nextTimer st)%nat /\
        exists n c,
          awaited a = Gemini.generateMeetingIntelligence n EmptyString c
                        (map toPayload (closure_files a));
    wf_intervals :
      forall id cs, intervals st !! id = Some cs -> (id < nextTimer st)%nat;
    wf_outbox : forall r, r ∈ outbox st -> issued r;
    wf_notes : notes st = EmptyString }.

End Spec.

(** ** Sample inputs *)

Module Sample.

Import App.

(** Test texts are written with ['] for the double quote. *)
Fixpoint dq (s : string) : string :=
  match s with
  | String c r => String (if Ascii.eqb c "'"%char then JSON.quote else c) (dq r)
  | EmptyString => EmptyString
  end.

(** The data URL of an empty text file. *)
Definition emptyFile : Browser.File :=
  {| Browser.file_name := "notes.txt"; Browser.file_type := "text/plain";
     Browser.file_bytes := EmptyString |}.

Definition deck : Browser.File :=
  {| Browser.file_name := "deck.pptx";
     Browser.file_type := "application/vnd.openxmlformats-officedocument.presentationml.presentation";
     Browser.file_bytes := "PK" |}.

(** A session with a file and a context text whose request is rejected. *)
Definition failedSession : list Event :=
  [ FileInputChange [deck] "slides"; ReaderLoaded 0; ContextInput "Q4 planning";
    GenerateClick;
    RequestSettled 0 (Gemini.Rejected (ServiceError "fetch failed"))
      "0.4fzyo82mvyr" "Nov 3, 2026" ].

Definition versionedDeck : Browser.File :=
  {| Browser.file_name := "Q4.v2.pdf"; Browser.file_type := "application/pdf";
     Browser.file_bytes := "%PDF" |}.

Definition dotFile : Browser.File :=
  {| Browser.file_name := ".pdf"; Browser.file_type := "application/pdf";
     Browser.file_bytes := "%PDF" |}.

(** A successful session on one uploaded file. *)
Definition sessionWith (f : Browser.File) : list Event :=
  [ FileInputChange [f] "notes"; ReaderLoaded 0; GenerateClick;
    RequestSettled 0 (Gemini.Fulfilled (Some "{}")) "0.4fzyo82mvyr" "Nov 3, 2026" ].

(** A session to try the properties on: a context text, then the click. *)
Definition sampleState : AppState :=
  run initial [ContextInput "Budget review"; GenerateClick].

Definition sampleAnalysis : Analysis :=
  {| closure_files := []; closure_interval := 1;
     awaited := Gemini.generateMeetingIntelligence EmptyString EmptyString
                  "Budget review" [] |}.

(** A response that conforms to the schema and also carries an [id] and a
    [title] of its own. *)
Definition sampleResponse : string :=
  dq ("{ 'meetingType': 'Budget Review', 'confidence': 87, 'sentiment': 'Cautious'," +:+
      " 'focusArea': 'Cost Control'," +:+
      " 'summary': { 'overview': 'Review of the Q4 budget.', 'objective': 'Agree on the cap.'," +:+
      " 'strategicImportance': 'High', 'criticalDecision': 'Cap approved.' }," +:+
      " 'strategicIntelligence': { 'stakeholders': [ { 'role': 'CFO', 'sentiment': 'Neutral' } ]," +:+
      " 'powerDynamics': 'Finance leads.', 'incentiveAnalysis': 'Savings targets.' }," +:+
      " 'riskIdentification': { 'risks': [], 'hiddenObjection': 'Hiring freeze.' }," +:+
      " 'talkingPoints': { 'points': [ { 'title': 'Cap', 'description': 'Flat budget.' } ]," +:+
      " 'framingStrategy': 'Discipline.' }," +:+
      " 'objections': [], " +:+
      " 'nextSteps': [ { 'action': 'Publish the cap', 'ownership': 'Finance'," +:+
      " 'timeline': 'Nov 10', 'status': 'PENDING' } ]," +:+
      " 'executiveBrief': 'Hold the budget flat.', 'coverImagePrompt': 'A ledger.'," +:+
      " 'id': 'from-service', 'title': 'From the service' }").

Definition sampleValue : json :=
  Eval vm_compute in
    match JSON.parse sampleResponse with
    | Return v => v
    | Throw _ => JNull
    end.

(** The fields of [sampleValue], and the same with an empty
    [strategicIntelligence], which the schema allows. *)
Definition sampleFields : Obj.t :=
  Eval vm_compute in
    match sampleValue with
    | JObject o => o
    | _ => []
    end.

Definition sparseFields : Obj.t :=
  Obj.set "strategicIntelligence" (JObject []) sampleFields.

End Sample.

(** ** The rendered view: the JSX of [App] *)

Module View.

Import App.

(** The [ReportData] interface: structural types with every field required. *)
Inductive TsType : Type :=
| TString
| TNumber
| TArray (item : TsType)
| TObject (fields : list (string * TsType)).

Definition ReportData : TsType :=
  TObject
    [ ("id", TString); ("date", TString); ("title", TString);
      ("meetingType", TString); ("confidence", TNumber);
      ("sentiment", TString); ("focusArea", TString);
      ("summary",
        TObject [ ("overview", TString); ("objective", TString);
                  ("strategicImportance", TString); ("criticalDecision", TString) ]);
      ("strategicIntelligence",
        TObject [ ("stakeholders",
                    TArray (TObject [ ("role", TString); ("sentiment", TString) ]));
                  ("powerDynamics", TString); ("incentiveAnalysis", TString) ]);
      ("riskIdentification",
        TObject [ ("risks",
                    TArray (TObject [ ("type", TString); ("title", TString);
                                      ("description", TString) ]));
                  ("hiddenObjection", TString) ]);
      ("talkingPoints",
        TObject [ ("points",
                    TArray (TObject [ ("title", TString); ("description", TString) ]));
                  ("framingStrategy", TString) ]);
      ("objections",
        TArray (TObject [ ("question", TString); ("response", TString) ]));
      ("nextSteps",
        TArray (TObject [ ("action", TString); ("ownership", TString);
                          ("timeline", TString); ("status", TString) ]));
      ("executiveBrief", TString); ("coverImagePrompt", TString) ].

(** A value has a type when it has the type's shape; an object has every
    field of the type, with a value of the field's type, and may have more. *)
Fixpoint hasType (t : TsType) (v : json) : bool :=
  match t, v with
  | TString, JString _ => true
  | TNumber, JNumber _ => true
  | TArray item, JArray vs => forallb (hasType item) vs
  | TObject fields, JObject o =>
      (fix each (fs : list (string * TsType)) : bool :=
         match fs with
         | [] => true
         | (k, tk) :: fs' =>
             match Obj.get k o with
             | Some vk => hasType tk vk
             | None => false
             end && each fs'
         end) fields
  | _, _ => false
  end.

(** The breadcrumb of the top bar. *)
Definition headerTitle (activeTab : Tab) (step : Step) : string :=
  match activeTab with
  | GENERATE =>
      match step with
      | INPUT => "New Intelligence Session"
      | ANALYZING => "Analysis in Progress"
      | REPORT => "Intelligence Portal"
      end
  | REPORTS =>
      match step with
      | REPORT => "Report Detail"
      | INPUT | ANALYZING => "Intelligence Archive"
      end
  end.

(** The blocks of the main area, each behind its own condition. *)
Inductive Panel : Type :=
| ReportsList
| InputForm
| AnalyzingView
| ReportDetail (report : Obj.t).

Definition reportsListShown (st : AppState) : bool :=
  match activeTab st, step st with
  | REPORTS, INPUT | REPORTS, ANALYZING => true
  | _, _ => false
  end.

Definition inputFormShown (st : AppState) : bool :=
  match activeTab st, step st with
  | GENERATE, INPUT => true
  | _, _ => false
  end.

Definition panels (st : AppState) : list Panel :=
  (if reportsListShown st then [ReportsList] else [])
  ++ (if inputFormShown st then [InputForm] else [])
  ++ (match step st with ANALYZING => [AnalyzingView] | INPUT | REPORT => [] end)
  ++ (match step st, report st with
      | REPORT, Some r => [ReportDetail r]
      | _, _ => []
      end).

(** The items of the sidebar list, [reportsHistory.slice(0, 5)]. *)
Definition recent (st : AppState) : list Obj.t := take 5 (reportsHistory st).

(** [hay.includes(needle)] *)
Fixpoint includes (needle hay : string) : bool :=
  String.prefix needle hay
  || match hay with
     | String _ rest => includes needle rest
     | EmptyString => false
     end.

(** [s.endsWith(suffix)] *)
Definition endsWith (suffix s : string) : bool :=
  let n := String.length s in
  let m := String.length suffix in
  (m <=? n)%nat && String.eqb (String.substring (n - m) m s) suffix.

Definition placeholder : string := "Click to upload or drag & drop".

(** The text of the two upload boxes. *)
Definition notesLabel (files : list UploadedFile) : string :=
  Js.or_else
    (name <$> List.find (fun f => includes "pdf" (type f) || includes "word" (type f)) files)
    placeholder.

Definition slidesLabel (files : list UploadedFile) : string :=
  Js.or_else
    (name <$> List.find (fun f => includes "presentation" (type f)
                                  || endsWith ".pptx" (name f)) files)
    placeholder.

(** The steps of the analysis pipeline and, for each, [isComplete] and
    [isActive]. *)
Definition analysisSteps : list (string * string) :=
  [ ("Processing Materials...", "Audio transcript and slide deck indexed.");
    ("Extracting Themes...", "Synthesizing core discussion pillars...");
    ("Identifying Stakeholders...", "Mapping influence and decision makers.");
    ("Finalizing Executive Summary", "Generating strategic action items.") ].

Definition pipeline (st : AppState) : list (bool * bool) :=
  imap (fun i _ => ((i <? currentAnalysisStep st)%nat, (i =? currentAnalysisStep st)%nat))
    analysisSteps.

(** *** The report detail

    Evaluating the JSX of the report reads properties of the report and of
    what it holds, and calls [map] on its lists.  Reading a property of
    [undefined] or [null], or calling a [map] that is not there, throws a
    [TypeError]. *)

Inductive TypeError : Type :=
| CannotRead (property : string)
| NotAFunction (property : string).

(** A JavaScript value: [None] is [undefined]. *)
Definition value : Type := option json.

(** [v.k] for the property names the view reads, none of which is inherited
    from a prototype: an own property of an object, [undefined] on any other
    value that is not [undefined] or [null]. *)
Definition read (v : value) (k : string) : TypeError + value :=
  match v with
  | None | Some JNull => inl (CannotRead k)
  | Some (JObject o) => inr (Obj.get k o)
  | Some (JBool _) | Some (JNumber _) | Some (JString _) | Some (JArray _) => inr None
  end.

Definition bind {A B : Type} (m : TypeError + A) (f : A -> TypeError + B) : TypeError + B :=
  match m with
  | inl e => inl e
  | inr a => f a
  end.

Notation "x <~ m ;; k" := (bind m (fun x => k))
  (at level 100, m at level 99, right associativity).

Fixpoint each {A : Type} (f : nat -> json -> TypeError + A) (i : nat)
    (items : list json) : TypeError + list A :=
  match items with
  | [] => inr []
  | item :: rest =>
      row <~ f i item;;
      rows <~ each f (S i) rest;;
      inr (row :: rows)
  end.

(** [v.map((item, i) => f)] *)
Definition map_ {A : Type} (v : value) (f : nat -> json -> TypeError + A) :
    TypeError + list A :=
  match v with
  | None | Some JNull => inl (CannotRead "map")
  | Some (JArray items) => each f 0 items
  | Some (JObject _) | Some (JBool _) | Some (JNumber _) | Some (JString _) =>
      inl (NotAFunction "map")
  end.

(** [v === 'text'] *)
Definition equals (v : value) (t : string) : bool :=
  match v with
  | Some (JString u) => String.eqb u t
  | _ => false
  end.

(** The colour variants the view picks with its conditional class names. *)
Inductive Tone : Type := Green | Navy | Amber | Red | Slate.

Record StakeholderRow : Type :=
  { stakeholder_role : value; stakeholder_sentiment : value; stakeholder_tone : Tone }.

Record RiskCard : Type :=
  { risk_tone : Tone; risk_type : value; risk_title : value; risk_description : value }.

Record TalkingPoint : Type :=
  { point_number : nat; point_title : value; point_description : value }.

Record Objection : Type := { objection_question : value; objection_response : value }.

Record NextStep : Type :=
  { step_action : value; step_ownership : value; step_timeline : value;
    step_tone : Tone; step_status : value }.

(** What the report detail displays, in document order. *)
Record ReportView : Type :=
  { confidence : value;
    focusArea : value;
    overview : value;
    objective : value;
    strategicImportance : value;
    criticalDecision : value;
    stakeholders : list StakeholderRow;
    powerDynamics : value;
    incentiveAnalysis : value;
    risks : list RiskCard;
    hiddenObjection : value;
    points : list TalkingPoint;
    framingStrategy : value;
    objections : list Objection;
    nextSteps : list NextStep;
    executiveBrief : value;
    coverImagePrompt : value }.

Definition stakeholderRow (i : nat) (s : json) : TypeError + StakeholderRow :=
  role <~ read (Some s) "role";;
  sentiment <~ read (Some s) "sentiment";;
  inr {| stakeholder_role := role;
         stakeholder_sentiment := sentiment;
         stakeholder_tone :=
           if equals sentiment "Supportive" then Green
           else if equals sentiment "Champion" then Navy else Amber |}.

Definition riskCard (i : nat) (r : json) : TypeError + RiskCard :=
  type <~ read (Some r) "type";;
  title <~ read (Some r) "title";;
  description <~ read (Some r) "description";;
  inr {| risk_tone :=
           if equals type "Strategic" then Red
           else if equals type "Political" then Amber else Navy;
         risk_type := type; risk_title := title; risk_description := description |}.

Definition talkingPoint (i : nat) (p : json) : TypeError + TalkingPoint :=
  title <~ read (Some p) "title";;
  description <~ read (Some p) "description";;
  inr {| point_number := i + 1; point_title := title; point_description := description |}.

Definition objection (i : nat) (o : json) : TypeError + Objection :=
  question <~ read (Some o) "question";;
  response <~ read (Some o) "response";;
  inr {| objection_question := question; objection_response := response |}.

Definition nextStep (i : nat) (step : json) : TypeError + NextStep :=
  action <~ read (Some step) "action";;
  ownership <~ read (Some step) "ownership";;
  timeline <~ read (Some step) "timeline";;
  status <~ read (Some step) "status";;
  inr {| step_action := action; step_ownership := ownership;
         step_timeline := timeline;
         step_tone := if equals status "PENDING" then Amber else Slate;
         step_status := status |}.

(** The block behind [step === 'REPORT' && report]. *)
Definition reportDetail (report : Obj.t) : TypeError + ReportView :=
  let report := Some (JObject report) in
  confidence <~ read report "confidence";;
  focusArea <~ read report "focusArea";;
  summary <~ read report "summary";;
  overview <~ read summary "overview";;
  objective <~ read summary "objective";;
  strategicImportance <~ read summary "strategicImportance";;
  criticalDecision <~ read summary "criticalDecision";;
  strategicIntelligence <~ read report "strategicIntelligence";;
  stakeholders <~ read strategicIntelligence "stakeholders";;
  stakeholders <~ map_ stakeholders stakeholderRow;;
  powerDynamics <~ read strategicIntelligence "powerDynamics";;
  incentiveAnalysis <~ read strategicIntelligence "incentiveAnalysis";;
  riskIdentification <~ read report "riskIdentification";;
  risks <~ read riskIdentification "risks";;
  risks <~ map_ risks riskCard;;
  hiddenObjection <~ read riskIdentification "hiddenObjection";;
  talkingPoints <~ read report "talkingPoints";;
  points <~ read talkingPoints "points";;
  points <~ map_ points talkingPoint;;
  framingStrategy <~ read talkingPoints "framingStrategy";;
  objections <~ read report "objections";;
  objections <~ map_ objections objection;;
  nextSteps <~ read report "nextSteps";;
  nextSteps <~ map_ nextSteps nextStep;;
  executiveBrief <~ read report "executiveBrief";;
  coverImagePrompt <~ read report "coverImagePrompt";;
  inr {| confidence := confidence; focusArea := focusArea;
         overview := overview; objective := objective;
         strategicImportance := strategicImportance;
         criticalDecision := criticalDecision;
         stakeholders := stakeholders;
         powerDynamics := powerDynamics; incentiveAnalysis := incentiveAnalysis;
         risks := risks; hiddenObjection := hiddenObjection;
         points := points; framingStrategy := framingStrategy;
         objections := objections; nextSteps := nextSteps;
         executiveBrief := executiveBrief; coverImagePrompt := coverImagePrompt |}.

(** Evaluating the main area.  Of its four blocks only the report detail
    reads what may be missing: the rows of the reports list read properties
    of history items, which are objects, and the input form reads the name
    and the type of collected files, which are strings. *)
Fixpoint blocks (ps : list Panel) : TypeError + list (option ReportView) :=
  match ps with
  | [] => inr []
  | ReportDetail r :: ps' =>
      v <~ reportDetail r;;
      vs <~ blocks ps';;
      inr (Some v :: vs)
  | (ReportsList | InputForm | AnalyzingView) :: ps' =>
      vs <~ blocks ps';;
      inr (None :: vs)
  end.

Definition mainArea (st : AppState) : TypeError + list (option ReportView) :=
  blocks (panels st).



End View.

(** ** Vocabulary for runs and for the report detail *)

Module Trace.

Import App.

(** The number of clicks on the generate button in a run. *)
Fixpoint generateClicks (evs : list Event) : nat :=
  match evs with
  | [] => 0
  | GenerateClick :: evs' => S (generateClicks evs')
  | _ :: evs' => generateClicks evs'
  end.

(** The number of settlements of a run that resumed a suspended call. *)
Fixpoint settled (st : AppState) (evs : list Event) : nat :=
  match evs with
  | [] => 0
  | ev :: evs' =>
      match ev with
      | RequestSettled k _ _ _ =>
          match analyses st !! k with
          | Some _ => S (settled (react st ev) evs')
          | None => settled (react st ev) evs'
          end
      | _ => settled (react st ev) evs'
      end
  end.

(** The events that only move between the views or edit the context. *)
Definition navigation (ev : Event) : bool :=
  match ev with
  | NewSessionClick | NavGenerateClick | NavReportsClick
  | RecentClick _ | ViewReportClick _ | ContextInput _ => true
  | _ => false
  end.

(** The entry [reader.onload] makes for a file. *)
Definition entryOf (file : Browser.File) : UploadedFile :=
  {| name := Browser.file_name file; type := Browser.file_type file;
     data := Browser.readAsDataURL file |}.

(** A value on which a property can be read. *)
Definition readable (v : View.value) : bool :=
  match v with
  | None | Some JNull => false
  | Some _ => true
  end.

(** A value on which [map] can be called with a callback that reads
    properties of each item. *)
Definition listable (v : View.value) : bool :=
  match v with
  | Some (JArray items) => forallb (fun item => readable (Some item)) items
  | _ => false
  end.

(** The property [k] of a value that is not [undefined] or [null]. *)
Definition field (v : View.value) (k : string) : View.value :=
  match v with
  | Some (JObject o) => Obj.get k o
  | _ => None
  end.

(** What the report detail needs of a report: its four sections are there,
    and its five lists are arrays without [null] items. *)
Definition renderable (report : Obj.t) : bool :=
  readable (Obj.get "summary" report)
  && readable (Obj.get "strategicIntelligence" report)
  && listable (field (Obj.get "strategicIntelligence" report) "stakeholders")
  && readable (Obj.get "riskIdentification" report)
  && listable (field (Obj.get "riskIdentification" report) "risks")
  && readable (Obj.get "talkingPoints" report)
  && listable (field (Obj.get "talkingPoints" report) "points")
  && listable (Obj.get "objections" report)
  && listable (Obj.get "nextSteps" report).

(** What the user has entered, read off the events alone: the text typed
    in the context area, the files chosen whose read has not finished, and
    the files whose read has finished, in the order in which it did.  A new
    session empties the text and the finished files. *)
Record Inputs : Type :=
  { typed : string; reading : list Browser.File; chosen : list Browser.File }.

Definition noInputs : Inputs :=
  {| typed := EmptyString; reading := []; chosen := [] |}.

Definition collect (inp : Inputs) (ev : Event) : Inputs :=
  match ev with
  | FileInputChange selection _ =>
      match selection !! 0%nat with
      | Some file =>
          {| typed := typed inp; reading := reading inp ++ [file]; chosen := chosen inp |}
      | None => inp
      end
  | ReaderLoaded k =>
      match reading inp !! k with
      | Some file =>
          {| typed := typed inp; reading := remove_nth k (reading inp);
             chosen := chosen inp ++ [file] |}
      | None => inp
      end
  | ReaderFailed k =>
      {| typed := typed inp; reading := remove_nth k (reading inp); chosen := chosen inp |}
  | ContextInput value =>
      {| typed := value; reading := reading inp; chosen := chosen inp |}
  | NewSessionClick =>
      {| typed := EmptyString; reading := reading inp; chosen := [] |}
  | _ => inp
  end.

(** The request for what has been entered: no notes, no slides text, the
    typed context, and the entries of the files read, in order. *)
Definition requestFor (inp : Inputs) : Gemini.Request :=
  Gemini.request
    (Gemini.generateMeetingIntelligence EmptyString EmptyString (typed inp)
       (map toPayload (map entryOf (chosen inp)))).

(** The requests a run should send: at each click on the generate button,
    the request for what has been entered until then. *)
Fixpoint sent (inp : Inputs) (evs : list Event) : list Gemini.Request :=
  match evs with
  | [] => []
  | ev :: evs' =>
      match ev with
      | GenerateClick => [requestFor inp]
      | _ => []
      end ++ sent (collect inp ev) evs'
  end.

(** The state holds what has been entered. *)
Record follows (inp : Inputs) (st : AppState) : Prop :=
  { follows_readers : readers st = reading inp;
    follows_context : context st = typed inp;
    follows_files : files st = map entryOf (chosen inp);
    follows_notes : notes st = EmptyString }.

(** Runs during which no session completes and no timer but [id] fires. *)
Fixpoint undisturbed (id : nat) (st : AppState) (evs : list Event) : bool :=
  match evs with
  | [] => true
  | ev :: evs' =>
      match ev with
      | IntervalFired id' _ => Nat.eqb id' id
      | _ =>
          match Spec.completes st ev with
          | Some _ => false
          | None => true
          end
      end && undisturbed id (react st ev) evs'
  end.

(** A report with an id, a date and a title that is not empty. *)
Definition titled (rep : Obj.t) : Prop :=
  exists id date title : string,
    Obj.get "id" rep = Some (JString id) /\
    Obj.get "date" rep = Some (JString date) /\
    Obj.get "title" rep = Some (JString title) /\
    Js.truthy title = true.


(** States whose timers are accounted for: every live interval is the one
    of a suspended call, and no two suspended calls share an interval. *)
Record tidy (st : AppState) : Prop :=
  { tidy_live :
      forall id cs, intervals st !! id = Some cs ->
        exists a, a ∈ analyses st /\ closure_interval a = id;
    tidy_distinct : NoDup (closure_interval <$> analyses st) }.

End Trace.

(** * Properties *)

Import App Spec Sample.

(** ** The built-ins *)

Example parse_empty_object : JSON.parse "{}" = Return (JObject []).
Proof. reflexivity. Qed.

Example parse_sample :
  JSON.parse (dq "{ 'a': [1, -2.5e3, true, null], 'b': {'c': 'x\ny'}, 'a': 'z' }")
  = Return (JObject [("a", JString "z");
                     ("b", JObject [("c", JString (String "x" (String (ascii_of_nat 10) "y")))])]).
Proof. vm_compute. reflexivity. Qed.

Example parse_rejects : JSON.parse "not json" = Throw (SyntaxError "Unexpected token or end of JSON input").
Proof. reflexivity. Qed.

Example base64_sample : Browser.base64 "Many hands" = "TWFueSBoYW5kcw==".
Proof. reflexivity. Qed.

Example baseName_samples :
  Spec.baseName "deck.pptx" = "deck" /\ Spec.baseName "Q4.v2.pdf" = "Q4.v2" /\
  Spec.baseName "README" = "README" /\ Spec.baseName ".pdf" = EmptyString.
Proof. repeat split. Qed.


(** ** Strings and objects *)

Section SplitLemmas.

Variable sep : ascii.

Lemma split_nonempty (t : string) : Js.split sep t <> [].
Proof.
  destruct t as [|c r]; simpl; [discriminate|].
  destruct (Ascii.eqb c sep); [discriminate|].
  destruct (Js.split sep r); discriminate.
Qed.

Lemma split_lacks (t : string) :
  Js.lacks sep t = true -> Js.split sep t = [t].
Proof.
  induction t as [|c r IH]; simpl; [reflexivity|].
  destruct (Ascii.eqb c sep); simpl; [discriminate|].
  intros H. rewrite (IH H). reflexivity.
Qed.

Lemma split_at_first (p r : string) :
  Js.lacks sep p = true ->
  Js.split sep (p +:+ String sep r) = p :: Js.split sep r.
Proof.
  induction p as [|c p IH]; simpl.
  - intros _. rewrite Ascii.eqb_refl. reflexivity.
  - destruct (Ascii.eqb c sep); simpl; [discriminate|].
    intros H. rewrite (IH H). reflexivity.
Qed.

End SplitLemmas.

Section ObjLemmas.

Lemma get_set_eq (k : string) (v : json) (o : Obj.t) :
  Obj.get k (Obj.set k v o) = Some v.
Proof.
  induction o as [|[k' v'] o IH]; simpl.
  - rewrite String.eqb_refl. reflexivity.
  - destruct (String.eqb k k') eqn:E; simpl.
    + rewrite String.eqb_refl. reflexivity.
    + rewrite E. exact IH.
Qed.

Lemma get_set_ne (k k' : string) (v : json) (o : Obj.t) :
  k' <> k -> Obj.get k' (Obj.set k v o) = Obj.get k' o.
Proof.
  intros Hne. induction o as [|[k0 v0] o IH]; simpl.
  - destruct (String.eqb_spec k' k); [contradiction|reflexivity].
  - destruct (String.eqb_spec k k0) as [->|Hk]; simpl.
    + destruct (String.eqb_spec k' k0); [contradiction|reflexivity].
    + destruct (String.eqb k' k0); [reflexivity|exact IH].
Qed.

End ObjLemmas.

(** ** The request payload *)

Section RequestPayload.

Import Gemini.

Variables notes slides context : string.

Lemma fold_push (fs : list FilePayload) (ps : list Part) :
  fold_left push fs ps = ps ++ map attachment fs.
Proof.
  revert ps. induction fs as [|f fs IH]; intros ps; simpl.
  - symmetry. apply app_nil_r.
  - rewrite IH. unfold push. rewrite <- app_assoc. reflexivity.
Qed.

(** Every call issues one request, of one content, whose parts are the
    instruction followed by one attachment per file, in order. *)
Lemma request_parts (fs : list FilePayload) :
  contents (request (generateMeetingIntelligence notes slides context fs))
  = [ {| parts := text (instruction notes slides context) :: map attachment fs |} ].
Proof.
  unfold generateMeetingIntelligence. simpl. rewrite fold_push. reflexivity.
Qed.

(** The media type of the [i]-th file is that of the [i]-th attachment. *)
Lemma attachment_mediaType (fs : list FilePayload) (i : nat) (f : FilePayload) :
  fs !! i = Some f ->
  exists d, (text (instruction notes slides context) :: map attachment fs) !! S i
            = Some (inlineData d (mimeType f)).
Proof.
  intros H. exists (attachmentData (data f)). simpl.
  rewrite list_lookup_fmap, H. reflexivity.
Qed.

End RequestPayload.

(** A payload with no comma is sent as it is. *)
Lemma attachmentData_raw (d : string) :
  Js.lacks ","%char d = true -> Gemini.attachmentData d = d.
Proof.
  intros H. unfold Gemini.attachmentData. rewrite (split_lacks _ _ H). reflexivity.
Qed.

(** A data URI whose payload is not empty and has no comma is sent without
    its prefix. *)
Lemma attachmentData_strips (prefix payload : string) :
  Js.lacks ","%char prefix = true ->
  Js.lacks ","%char payload = true ->
  Js.truthy payload = true ->
  Gemini.attachmentData (prefix +:+ String ","%char payload) = payload.
Proof.
  intros Hp Hb Ht. unfold Gemini.attachmentData.
  rewrite (split_at_first _ _ _ Hp), (split_lacks _ _ Hb). simpl.
  rewrite Ht. reflexivity.
Qed.

Section DataURLs.

Lemma afterPrefix_none (d : string) :
  afterPrefix d = None -> Js.lacks ","%char d = true.
Proof.
  induction d as [|c r IH]; simpl; [reflexivity|].
  destruct (Ascii.eqb c ","%char); simpl; [discriminate|exact IH].
Qed.

Lemma afterPrefix_some (d payload : string) :
  afterPrefix d = Some payload ->
  exists prefix,
    Js.lacks ","%char prefix = true /\ d = prefix +:+ String ","%char payload.
Proof.
  revert payload. induction d as [|c r IH]; simpl; intros payload; [discriminate|].
  destruct (Ascii.eqb_spec c ","%char) as [->|Hc].
  - intros [= ->]. exists EmptyString. split; reflexivity.
  - intros H. destruct (IH _ H) as (prefix & Hp & ->).
    exists (String c prefix). simpl. split; [|reflexivity].
    destruct (Ascii.eqb_spec c ","%char); [contradiction|exact Hp].
Qed.

(** The code sends what the specification asks for exactly on the strings
    that have no comma and on those whose text after the first comma is not
    empty and has no further comma. *)
Lemma attachmentData_withoutPrefix (d : string) :
  match afterPrefix d with
  | Some payload => Js.truthy payload && Js.lacks ","%char payload
  | None => true
  end = true ->
  Gemini.attachmentData d = withoutPrefix d.
Proof.
  unfold withoutPrefix. destruct (afterPrefix d) as [payload|] eqn:E; intros H.
  - apply andb_true_iff in H. destruct H as [Ht Hl].
    destruct (afterPrefix_some _ _ E) as (prefix & Hp & ->).
    apply attachmentData_strips; assumption.
  - apply attachmentData_raw, afterPrefix_none, E.
Qed.

Lemma base64_char_no_comma (n : nat) :
  Ascii.eqb (Browser.base64_char n) ","%char = false.
Proof.
  destruct (le_lt_dec 64 n) as [Hge|Hlt].
  - unfold Browser.base64_char.
    replace (n <? 26)%nat with false by (symmetry; apply Nat.ltb_ge; lia).
    replace (n <? 52)%nat with false by (symmetry; apply Nat.ltb_ge; lia).
    replace (n <? 62)%nat with false by (symmetry; apply Nat.ltb_ge; lia).
    replace (n =? 62)%nat with false by (symmetry; apply Nat.eqb_neq; lia).
    reflexivity.
  - do 64 (destruct n as [|n]; [reflexivity|]). lia.
Qed.

Lemma base64_no_comma_upto (n : nat) (bytes : string) :
  (String.length bytes <= n)%nat -> Js.lacks ","%char (Browser.base64 bytes) = true.
Proof.
  revert bytes. induction n as [|n IH]; intros bytes Hlen.
  - destruct bytes; [reflexivity|simpl in Hlen; lia].
  - destruct bytes as [|a [|b [|c rest]]]; [reflexivity| | |];
      cbn [Browser.base64 Js.lacks]; rewrite ?base64_char_no_comma; cbn [negb andb];
      try reflexivity.
    apply IH. simpl in Hlen. lia.
Qed.

Lemma base64_no_comma (bytes : string) :
  Js.lacks ","%char (Browser.base64 bytes) = true.
Proof. apply (base64_no_comma_upto (String.length bytes)). lia. Qed.

Lemma base64_truthy (bytes : string) :
  Js.truthy bytes = true -> Js.truthy (Browser.base64 bytes) = true.
Proof. destruct bytes as [|a [|b [|c rest]]]; [discriminate|reflexivity..]. Qed.

Lemma lacks_append (c : ascii) (t u : string) :
  Js.lacks c (t +:+ u) = Js.lacks c t && Js.lacks c u.
Proof.
  induction t as [|d r IH]; simpl; [reflexivity|].
  rewrite IH. apply andb_assoc.
Qed.

Lemma append_assoc (t u v : string) : (t +:+ u) +:+ v = t +:+ (u +:+ v).
Proof.
  induction t as [|c r IH]; [reflexivity|].
  change (String c ((r +:+ u) +:+ v) = String c (r +:+ (u +:+ v))).
  rewrite IH. reflexivity.
Qed.

(** For an uploaded file that is not empty and whose declared type has no
    comma, the attachment data is the base64 text of its bytes. *)
Lemma upload_attachmentData (f : Browser.File) :
  Js.truthy (Browser.file_bytes f) = true ->
  Js.lacks ","%char (Browser.file_type f) = true ->
  Gemini.attachmentData (Browser.readAsDataURL f) = Browser.base64 (Browser.file_bytes f).
Proof.
  intros Hb Ht. unfold Browser.readAsDataURL.
  change (";base64," +:+ Browser.base64 (Browser.file_bytes f))
    with (";base64" +:+ String ","%char (Browser.base64 (Browser.file_bytes f))).
  rewrite <- (append_assoc (Browser.file_type f)), <- (append_assoc "data:").
  apply attachmentData_strips.
  - rewrite !lacks_append, Ht. reflexivity.
  - apply base64_no_comma.
  - apply base64_truthy, Hb.
Qed.

End DataURLs.

(** C1. The request has one instruction part followed by one attachment per
    file, in order and with the media type kept, but the data-URI prefix is
    not always stripped: for the data URL of an empty file, whose payload
    after the comma is empty, [split(',')[1]] is the falsy empty string and
    the whole data URL, prefix included, is sent as the attachment data.
    The application sends exactly this when an empty file is uploaded. *)
Theorem C1_empty_payload_keeps_prefix :
  let d := Browser.readAsDataURL emptyFile in
  let call :=
    Gemini.generateMeetingIntelligence "Budget review" EmptyString EmptyString
      [ {| Gemini.data := d; Gemini.mimeType := "text/plain" |} ] in
  d = "data:text/plain;base64," /\
  Gemini.contents (Gemini.request call)
  = [ {| Gemini.parts :=
           [ Gemini.text (Gemini.instruction "Budget review" EmptyString EmptyString);
             Gemini.inlineData "data:text/plain;base64," "text/plain" ] |} ] /\
  withoutPrefix d = EmptyString /\
  Gemini.attachmentData d <> withoutPrefix d /\
  map Gemini.contents
    (outbox (run initial [ FileInputChange [emptyFile] "notes"; ReaderLoaded 0;
                           GenerateClick ]))
  = [ [ {| Gemini.parts :=
             [ Gemini.text (Gemini.instruction EmptyString EmptyString EmptyString);
               Gemini.inlineData "data:text/plain;base64," "text/plain" ] |} ] ].
Proof.
  cbv zeta. split; [reflexivity|]. split; [reflexivity|]. split; [reflexivity|].
  split; [discriminate|]. vm_compute. reflexivity.
Qed.

(** ** The response *)

Lemma parse_empty_text : exists e, JSON.parse EmptyString = Throw e.
Proof. eexists. reflexivity. Qed.

Lemma parse_return_truthy (t : string) (v : json) :
  JSON.parse t = Return v -> Js.truthy t = true.
Proof. destruct t; [discriminate|reflexivity]. Qed.

(** C2, as stated, fails: a non-empty text that is not JSON makes the call
    reject with the parse error instead of returning an empty object. *)
Lemma C2_counterexample :
  JSON.parse "not json" = Throw (SyntaxError "Unexpected token or end of JSON input") /\
  Gemini.resume (Gemini.generateMeetingIntelligence EmptyString EmptyString EmptyString [])
    (Gemini.Fulfilled (Some "not json"))
  <> Return (JObject []).
Proof. split; [reflexivity|discriminate]. Qed.

(** C2, amended.  When the text of the response fails to parse, the call
    returns the empty object only if that text is empty; for a non-empty text
    it rejects with the parse error.  A response without text also gives the
    empty object. *)
Theorem C2_unparsable_text (notes slides context : string)
    (files : list Gemini.FilePayload) (response_text : string) (e : JsError) :
  JSON.parse response_text = Throw e ->
  Gemini.resume (Gemini.generateMeetingIntelligence notes slides context files)
    (Gemini.Fulfilled (Some response_text))
  = (if Js.truthy response_text then Throw e else Return (JObject []))
  /\ Gemini.resume (Gemini.generateMeetingIntelligence notes slides context files)
       (Gemini.Fulfilled None)
     = Return (JObject []).
Proof.
  intros H. split; [|reflexivity].
  destruct response_text as [|c r]; [reflexivity|].
  simpl. exact H.
Qed.

Lemma C2_unparsable_text_witness :
  JSON.parse "not json" = Throw (SyntaxError "Unexpected token or end of JSON input") /\
  Gemini.resume (Gemini.generateMeetingIntelligence "n" "s" "c" [])
    (Gemini.Fulfilled (Some "not json"))
  = Throw (SyntaxError "Unexpected token or end of JSON input").
Proof.
  split; [reflexivity|].
  exact (proj1 (C2_unparsable_text "n" "s" "c" [] "not json" _ eq_refl)).
Defined.

(** ** The session *)

Section Session.

Import App.

(** What the continuation of [startAnalysis] does when the awaited call
    returns [result]: it completes normally, having stored the report,
    prepended it to the history, scheduled the switch to the report view and
    cleared its interval. *)
Lemma settle_success (st : AppState) (k : nat) (a : Analysis)
    (outcome : Gemini.Outcome) (random36 today : string) (result : json) :
  analyses st !! k = Some a ->
  Gemini.resume (awaited a) outcome = Return result ->
  dispatch (RequestSettled k outcome random36 today) st
  = (Return tt,
     let rep := finalReport result random36 today (closure_files a) in
     {| activeTab := activeTab st; step := step st; notes := notes st;
        context := context st; files := files st;
        report := Some rep; reportsHistory := rep :: reportsHistory st;
        analysisProgress := 100; currentAnalysisStep := 3;
        readers := readers st;
        intervals := delete (closure_interval a) (intervals st);
        nextTimer := S (nextTimer st); timeouts := S (timeouts st);
        analyses := remove_nth k (analyses st); outbox := outbox st;
        alerts := alerts st; console := console st |}).
Proof.
  intros Ha Hr. unfold dispatch, bind, get. rewrite Ha.
  unfold startAnalysis_resume, try_catch_finally, bind, await, update.
  cbn. rewrite Hr. reflexivity.
Qed.

(** What it does when the awaited call throws [e]: the [catch] block logs
    the error, returns to the input step and alerts; nothing is rethrown. *)
Lemma settle_failure (st : AppState) (k : nat) (a : Analysis)
    (outcome : Gemini.Outcome) (random36 today : string) (e : JsError) :
  analyses st !! k = Some a ->
  Gemini.resume (awaited a) outcome = Throw e ->
  dispatch (RequestSettled k outcome random36 today) st
  = (Return tt,
     {| activeTab := activeTab st; step := INPUT; notes := notes st;
        context := context st; files := files st;
        report := report st; reportsHistory := reportsHistory st;
        analysisProgress := analysisProgress st;
        currentAnalysisStep := currentAnalysisStep st;
        readers := readers st;
        intervals := delete (closure_interval a) (intervals st);
        nextTimer := nextTimer st; timeouts := timeouts st;
        analyses := remove_nth k (analyses st); outbox := outbox st;
        alerts := alerts st ++ ["Failed to generate report. Please try again."];
        console := console st ++ [("Analysis failed:", e)] |}).
Proof.
  intros Ha Hr. unfold dispatch, bind, get. rewrite Ha.
  unfold startAnalysis_resume, try_catch_finally, bind, await, update.
  cbn. rewrite Hr. reflexivity.
Qed.

(** A settlement that has no suspended call to resume does nothing. *)
Lemma settle_nothing (st : AppState) (k : nat)
    (outcome : Gemini.Outcome) (random36 today : string) :
  analyses st !! k = None ->
  dispatch (RequestSettled k outcome random36 today) st = (Return tt, st).
Proof.
  intros Ha. unfold dispatch, bind, get. rewrite Ha. reflexivity.
Qed.

(** What a click on the generate button does. *)
Lemma generate_click (st : AppState) :
  dispatch GenerateClick st
  = (Return tt,
     let call :=
       Gemini.generateMeetingIntelligence (notes st) EmptyString (context st)
         (map toPayload (files st)) in
     {| activeTab := activeTab st; step := ANALYZING; notes := notes st;
        context := context st; files := files st;
        report := report st; reportsHistory := reportsHistory st;
        analysisProgress := 0; currentAnalysisStep := 0;
        readers := readers st;
        intervals := <[nextTimer st := currentAnalysisStep st]> (intervals st);
        nextTimer := S (nextTimer st); timeouts := timeouts st;
        analyses := analyses st ++ [ {| closure_files := files st;
                                        closure_interval := nextTimer st;
                                        awaited := call |} ];
        outbox := outbox st ++ [Gemini.request call];
        alerts := alerts st; console := console st |}).
Proof. reflexivity. Qed.

(** No handler lets an exception escape. *)
Lemma dispatch_returns (ev : Event) (st : AppState) :
  fst (dispatch ev st) = Return tt.
Proof.
  destruct ev; try reflexivity.
  - unfold dispatch, bind, get, handleFileUpload.
    destruct (selection !! 0%nat); reflexivity.
  - unfold dispatch, bind, get. destruct (readers st !! k); reflexivity.
  - destruct (analyses st !! k) as [a|] eqn:Ha.
    + destruct (Gemini.resume (awaited a) outcome) as [result|e] eqn:Hr.
      * erewrite settle_success by eassumption. reflexivity.
      * erewrite settle_failure by eassumption. reflexivity.
    + rewrite settle_nothing by assumption. reflexivity.
  - unfold dispatch, bind, get.
    destruct (intervals st !! id) as [cs|]; [|reflexivity].
    unfold interval_callback, bind, get.
    destruct (Qle_bool 100 (analysisProgress st)); [reflexivity|].
    repeat match goal with
      | |- context [if ?b then setCurrentAnalysisStep _ else _] => destruct b
      end; reflexivity.
  - unfold dispatch, bind, get. destruct (timeouts st); reflexivity.
  - unfold dispatch, bind, get.
    destruct (take 5 (reportsHistory st) !! i); reflexivity.
  - unfold dispatch, bind, get.
    destruct (reportsHistory st !! i); reflexivity.
Qed.

End Session.

(** ** Invariants of the event loop *)

(** Case analysis on a settlement: no suspended call, success, failure. *)
Ltac settle_cases st k outcome :=
  let a := fresh "a" in
  let Ha := fresh "Ha" in
  let Hr := fresh "Hr" in
  unfold react;
  destruct (analyses st !! k) as [a|] eqn:Ha;
  [ destruct (Gemini.resume (awaited a) outcome) as [?result|?e] eqn:Hr;
    [ erewrite settle_success by eassumption
    | erewrite settle_failure by eassumption ]
  | rewrite settle_nothing by assumption ];
  cbn [snd fst].

(** Case analysis on the handler of any other event. *)
Ltac handler_cases :=
  unfold react, dispatch, bind, get, handleFileUpload, interval_callback, bind, get;
  cbn;
  repeat match goal with
    | |- context [match ?x with _ => _ end] =>
        lazymatch x with
        | context [match _ with _ => _ end] => fail
        | _ => destruct x eqn:?
        end; cbn
    end.

Ltac by_event ev st tac :=
  destruct ev;
  [ | | | | | match goal with
              | k : nat, o : Gemini.Outcome |- _ => settle_cases st k o
              end | | | | | | | ];
  try handler_cases; cbn; tac.

Section Invariants.

Lemma elem_of_remove_nth {A : Type} (k : nat) (l : list A) (x : A) :
  x ∈ remove_nth k l -> x ∈ l.
Proof.
  unfold remove_nth. rewrite elem_of_app. intros [H|H].
  - eapply subseteq_take; eassumption.
  - eapply subseteq_drop; eassumption.
Qed.

Lemma nextTimer_mono (st : AppState) (ev : Event) :
  (nextTimer st <= nextTimer (react st ev))%nat.
Proof. by_event ev st lia. Qed.

(** A live timer was live before the event or is the one just created. *)
Lemma intervals_origin (st : AppState) (ev : Event) (id cs : nat) :
  intervals (react st ev) !! id = Some cs ->
  intervals st !! id = Some cs \/
  (id = nextTimer st /\ (nextTimer st < nextTimer (react st ev))%nat).
Proof.
  revert id cs. by_event ev st ltac:(intros ? ?; auto).
  - intros H. apply lookup_insert_Some in H. destruct H as [[<- _]|[_ H]]; auto.
  - intros H. apply lookup_delete_Some in H. left. apply H.
  - intros H. apply lookup_delete_Some in H. left. apply H.
  - intros H. apply lookup_delete_Some in H. left. apply H.
Qed.

(** A suspended call was suspended before the event or is the one
    [startAnalysis] has just made from the rendered state. *)
Lemma analyses_origin (st : AppState) (ev : Event) (a : Analysis) :
  a ∈ analyses (react st ev) ->
  a ∈ analyses st \/
  (a = {| closure_files := files st; closure_interval := nextTimer st;
          awaited := Gemini.generateMeetingIntelligence (notes st) EmptyString
                       (context st) (map toPayload (files st)) |}
   /\ (nextTimer st < nextTimer (react st ev))%nat).
Proof.
  by_event ev st ltac:(auto).
  - rewrite elem_of_app, list_elem_of_singleton. intros [H| ->]; auto.
  - intros H. left. eapply elem_of_remove_nth; eassumption.
  - intros H. left. eapply elem_of_remove_nth; eassumption.
Qed.

Lemma outbox_origin (st : AppState) (ev : Event) (r : Gemini.Request) :
  r ∈ outbox (react st ev) -> r ∈ outbox st \/ issued r.
Proof.
  by_event ev st ltac:(auto).
  rewrite elem_of_app, list_elem_of_singleton. intros [H| ->]; [auto|].
  right. exists (notes st), (context st), (files st). reflexivity.
Qed.

Lemma notes_origin (st : AppState) (ev : Event) :
  notes (react st ev) = notes st \/ notes (react st ev) = EmptyString.
Proof. by_event ev st ltac:(auto). Qed.

Lemma wf_initial : wf initial.
Proof.
  split; cbn.
  - intros a H. apply elem_of_nil in H. contradiction.
  - intros id cs H. rewrite lookup_empty in H. discriminate.
  - intros r H. apply elem_of_nil in H. contradiction.
  - reflexivity.
Qed.

Lemma wf_react (st : AppState) (ev : Event) : wf st -> wf (react st ev).
Proof.
  intros [Ha Hi Ho Hn]. pose proof (nextTimer_mono st ev) as Hm. split.
  - intros a H. apply analyses_origin in H. destruct H as [H|[-> Hlt]].
    + destruct (Ha a H) as [Hlt Hcall]. split; [lia|exact Hcall].
    + cbn. split; [exact Hlt|eauto].
  - intros id cs H. apply intervals_origin in H. destruct H as [H|[-> Hlt]].
    + specialize (Hi id cs H). lia.
    + exact Hlt.
  - intros r H. apply outbox_origin in H. destruct H as [H|H]; auto.
  - destruct (notes_origin st ev) as [H|H]; congruence.
Qed.

Lemma wf_run (evs : list Event) (st : AppState) : wf st -> wf (run st evs).
Proof.
  revert st. induction evs as [|ev evs IH]; intros st H; cbn; [exact H|].
  apply IH, wf_react, H.
Qed.

Lemma wf_reachable (st : AppState) : reachable st -> wf st.
Proof. intros [evs ->]. apply wf_run, wf_initial. Qed.

Lemma run_app (st : AppState) (evs1 evs2 : list Event) :
  run st (evs1 ++ evs2) = run (run st evs1) evs2.
Proof. apply fold_left_app. Qed.

Lemma reachable_react (st : AppState) (ev : Event) :
  reachable st -> reachable (react st ev).
Proof.
  intros [evs ->]. exists (evs ++ [ev]). rewrite run_app. reflexivity.
Qed.

(** A timer that is not live and whose id has been handed out stays so. *)
Lemma interval_stays_cleared (i : nat) (st : AppState) (ev : Event) :
  intervals st !! i = None -> (i < nextTimer st)%nat ->
  intervals (react st ev) !! i = None /\ (i < nextTimer (react st ev))%nat.
Proof.
  intros Hnone Hlt. pose proof (nextTimer_mono st ev) as Hm. split; [|lia].
  destruct (intervals (react st ev) !! i) as [cs|] eqn:E; [|reflexivity].
  apply intervals_origin in E. destruct E as [E|[-> _]]; [congruence|lia].
Qed.

Lemma interval_cleared_forever (i : nat) (evs : list Event) (st : AppState) :
  intervals st !! i = None -> (i < nextTimer st)%nat ->
  intervals (run st evs) !! i = None.
Proof.
  revert st. induction evs as [|ev evs IH]; intros st Hnone Hlt; cbn; [exact Hnone|].
  destruct (interval_stays_cleared i st ev Hnone Hlt). apply IH; assumption.
Qed.

(** The timer of a cleared interval does not fire. *)
Lemma cleared_interval_silent (i : nat) (random : Q) (st : AppState) :
  intervals st !! i = None -> react st (IntervalFired i random) = st.
Proof.
  intros H. unfold react, dispatch, bind, get. rewrite H. reflexivity.
Qed.

End Invariants.

(** ** The stored report *)

Section StoredReport.

Lemma conforms_object (v : json) :
  conforms Gemini.reportSchema v = true -> exists o, v = JObject o.
Proof. destruct v; try discriminate. eauto. Qed.

Lemma local_key_false (key : string) :
  local_key key = false -> key <> "id" /\ key <> "date" /\ key <> "title".
Proof.
  unfold local_key. intros H.
  apply orb_false_iff in H. destruct H as [H Ht].
  apply orb_false_iff in H. destruct H as [Hi Hd].
  repeat split; intros ->; discriminate.
Qed.

(** The fields of the report literal: the three local ones, and every other
    one as the spread value has it. *)
Lemma finalReport_fields (result : json) (random36 today : string)
    (fs : list UploadedFile) :
  let rep := finalReport result random36 today fs in
  Obj.get "id" rep = Some (JString (Browser.substr 2 9 random36)) /\
  Obj.get "date" rep = Some (JString today) /\
  Obj.get "title" rep = Some (JString (sessionTitle fs)) /\
  forall key, local_key key = false -> Obj.get key rep = Obj.get key (spread result).
Proof.
  unfold finalReport. cbv zeta. repeat split.
  - rewrite !get_set_ne by discriminate. apply get_set_eq.
  - rewrite get_set_ne by discriminate. apply get_set_eq.
  - apply get_set_eq.
  - intros key H. apply local_key_false in H. destruct H as (Hi & Hd & Ht).
    rewrite !get_set_ne by assumption. reflexivity.
Qed.

Lemma wf_awaited (st : AppState) (k : nat) (a : Analysis) :
  wf st -> analyses st !! k = Some a ->
  (closure_interval a < nextTimer st)%nat /\
  exists n c,
    awaited a = Gemini.generateMeetingIntelligence n EmptyString c
                  (map toPayload (closure_files a)).
Proof.
  intros Hwf Ha. apply (wf_analyses st Hwf). eapply list_elem_of_lookup_2, Ha.
Qed.

End StoredReport.

(** C3. When the text of the response is JSON that conforms to
    [reportSchema], the report the session stores (as [report] and at the
    head of the history) has, under every key other than [id], [date] and
    [title], exactly what the parsed object has under that key; [id], [date]
    and [title] hold the locally generated values whatever the response
    has under these keys. *)
Theorem C3_report_fields (st : AppState) (k : nat) (a : Analysis)
    (response_text random36 today : string) (v : json) :
  reachable st ->
  analyses st !! k = Some a ->
  JSON.parse response_text = Return v ->
  conforms Gemini.reportSchema v = true ->
  let st' := react st (RequestSettled k (Gemini.Fulfilled (Some response_text))
                         random36 today) in
  exists rep o,
    v = JObject o /\
    report st' = Some rep /\
    reportsHistory st' = rep :: reportsHistory st /\
    (forall key, local_key key = false -> Obj.get key rep = Obj.get key o) /\
    Obj.get "id" rep = Some (JString (Browser.substr 2 9 random36)) /\
    Obj.get "date" rep = Some (JString today) /\
    Obj.get "title" rep = Some (JString (sessionTitle (closure_files a))).
Proof.
  intros Hreach Ha Hparse Hconf st'.
  destruct (conforms_object v Hconf) as [o ->].
  destruct (wf_awaited st k a (wf_reachable st Hreach) Ha) as [_ (n & c & Hcall)].
  assert (Hres : Gemini.resume (awaited a) (Gemini.Fulfilled (Some response_text))
                 = Return (JObject o)).
  { rewrite Hcall. cbn. destruct response_text; [discriminate|exact Hparse]. }
  subst st'. unfold react. rewrite (settle_success _ _ _ _ _ _ _ Ha Hres). cbn.
  destruct (finalReport_fields (JObject o) random36 today (closure_files a))
    as (Hi & Hd & Ht & Hk).
  eexists _, o. repeat split; try eassumption.
Qed.

Lemma C3_report_fields_witness :
  exists rep o,
    sampleValue = JObject o /\
    report (react sampleState
              (RequestSettled 0 (Gemini.Fulfilled (Some sampleResponse))
                 "0.4fzyo82mvyr" "Nov 3, 2026")) = Some rep /\
    reportsHistory (react sampleState
                      (RequestSettled 0 (Gemini.Fulfilled (Some sampleResponse))
                         "0.4fzyo82mvyr" "Nov 3, 2026"))
    = rep :: reportsHistory sampleState /\
    (forall key, local_key key = false -> Obj.get key rep = Obj.get key o) /\
    Obj.get "id" rep = Some (JString (Browser.substr 2 9 "0.4fzyo82mvyr")) /\
    Obj.get "date" rep = Some (JString "Nov 3, 2026") /\
    Obj.get "title" rep = Some (JString (sessionTitle (closure_files sampleAnalysis))).
Proof.
  apply (C3_report_fields sampleState 0 sampleAnalysis sampleResponse
           "0.4fzyo82mvyr" "Nov 3, 2026" sampleValue).
  - exists [ContextInput "Budget review"; GenerateClick]. reflexivity.
  - reflexivity.
  - vm_compute. reflexivity.
  - vm_compute. reflexivity.
Defined.

(** The scenario of the specification: the brief of the stored report is
    that of the response, while the id and the title are local. *)
Example stored_report_sample :
  let st := react sampleState
              (RequestSettled 0 (Gemini.Fulfilled (Some sampleResponse))
                 "0.4fzyo82mvyr" "Nov 3, 2026") in
  (Obj.get "executiveBrief" <$> report st) = Some (Some (JString "Hold the budget flat.")) /\
  (Obj.get "id" <$> report st) = Some (Some (JString "4fzyo82mv")) /\
  (Obj.get "title" <$> report st) = Some (Some (JString "Untitled Session")) /\
  length (reportsHistory st) = 2%nat.
Proof. vm_compute. repeat split. Qed.

(** ** Failure of the call *)

(** C4, as stated, fails: after a rejected request the session is back at
    the input step, but the file and the context text are still there. *)
Lemma C4_counterexample :
  let st := run initial failedSession in
  step st = INPUT /\
  context st = "Q4 planning" /\
  length (files st) = 1%nat /\
  ~ (files st = [] /\ notes st = EmptyString /\ context st = EmptyString).
Proof.
  vm_compute. repeat split. intros (H & _). discriminate.
Qed.

(** C4, amended.  When the awaited call fails, the session returns to the
    input step, the error is logged and one generic alert is shown; the
    collected files, the notes and the context are left as they were, as are
    the report and the history. *)
Theorem C4_failure_keeps_input (st : AppState) (k : nat) (a : Analysis)
    (outcome : Gemini.Outcome) (random36 today : string) (e : JsError) :
  analyses st !! k = Some a ->
  Gemini.resume (awaited a) outcome = Throw e ->
  let st' := react st (RequestSettled k outcome random36 today) in
  step st' = INPUT /\
  files st' = files st /\ notes st' = notes st /\ context st' = context st /\
  report st' = report st /\ reportsHistory st' = reportsHistory st /\
  alerts st' = alerts st ++ ["Failed to generate report. Please try again."] /\
  console st' = console st ++ [("Analysis failed:", e)].
Proof.
  intros Ha Hr st'. subst st'. unfold react.
  rewrite (settle_failure _ _ _ _ _ _ _ Ha Hr). cbn. repeat split.
Qed.

Lemma C4_failure_keeps_input_witness :
  let st := run initial [ContextInput "Q4 planning"; GenerateClick] in
  let st' := react st (RequestSettled 0 (Gemini.Rejected (ServiceError "fetch failed"))
                         "0.4fzyo82mvyr" "Nov 3, 2026") in
  step st' = INPUT /\ context st' = "Q4 planning" /\
  alerts st' = ["Failed to generate report. Please try again."].
Proof.
  intros st st'.
  destruct (C4_failure_keeps_input st 0
              {| closure_files := []; closure_interval := 1;
                 awaited := Gemini.generateMeetingIntelligence EmptyString EmptyString
                              "Q4 planning" [] |}
              (Gemini.Rejected (ServiceError "fetch failed"))
              "0.4fzyo82mvyr" "Nov 3, 2026" (ServiceError "fetch failed")
              eq_refl eq_refl) as (Hs & _ & _ & Hc & _ & _ & Hal & _).
  split; [exact Hs | split; [exact Hc | exact Hal]].
Defined.

(** ** The history *)

Section History.

(** An event leaves the history as it is, or, when it completes a session,
    puts that session's report in front of it. *)
Lemma history_react (st : AppState) (ev : Event) :
  reportsHistory (react st ev)
  = match completes st ev with
    | Some rep => rep :: reportsHistory st
    | None => reportsHistory st
    end.
Proof.
  destruct ev; try (handler_cases; reflexivity).
  unfold completes. settle_cases st k outcome; reflexivity.
Qed.

Lemma history_run (evs : list Event) (st : AppState) :
  reportsHistory (run st evs) = rev (completed st evs) ++ reportsHistory st.
Proof.
  revert st. induction evs as [|ev evs IH]; intros st; [reflexivity|].
  change (run st (ev :: evs)) with (run (react st ev) evs).
  rewrite IH, history_react. cbn [completed].
  destruct (completes st ev) as [rep|]; [|reflexivity].
  cbn [rev]. rewrite <- app_assoc. reflexivity.
Qed.

End History.

(** C5. After any run of the application the history holds the reports of
    its successful sessions, the most recently completed first, followed by
    the seed entry, so its length is their number plus one; and a single
    event either leaves the history untouched or, when it completes a
    session, prepends that session's report to it. *)
Theorem C5_history_order (evs : list Event) :
  reportsHistory (run initial evs) = rev (completed initial evs) ++ [MOCK_REPORT] /\
  length (reportsHistory (run initial evs)) = (length (completed initial evs) + 1)%nat /\
  forall st ev,
    reportsHistory (react st ev)
    = match completes st ev with
      | Some rep => rep :: reportsHistory st
      | None => reportsHistory st
      end.
Proof.
  pose proof (history_run evs initial) as H. cbn in H. repeat split.
  - exact H.
  - rewrite H, length_app, length_rev. reflexivity.
  - apply history_react.
Qed.

(** Two sessions: the report of the second one comes first. *)
Example history_sample :
  let evs := [ GenerateClick;
               RequestSettled 0 (Gemini.Fulfilled (Some (dq "{'executiveBrief': 'first'}")))
                 "0.aaaaaaaaaaa" "Nov 3, 2026";
               NewSessionClick; GenerateClick;
               RequestSettled 0 (Gemini.Fulfilled (Some (dq "{'executiveBrief': 'second'}")))
                 "0.bbbbbbbbbbb" "Nov 4, 2026" ] in
  map (Obj.get "executiveBrief") (reportsHistory (run initial evs))
  = [ Some (JString "second"); Some (JString "first");
      Some (JString "We are moving forward with the EMEA expansion. Budget is approved. Focus is on speed to market. Risks are manageable but require close monitoring of regional regulations.") ].
Proof. vm_compute. reflexivity. Qed.

(** ** Responses that are not JSON *)

(** C6. No exception leaves [startAnalysis], but the system does throw
    uncaught for one text that is not valid JSON, the empty one.  The call
    replaces it by an empty object, the session succeeds and stores a report
    with no fields but [id], [date] and [title]; when its timeout has set
    the step to [REPORT], the detail of that report is evaluated, reads
    [report.summary.overview] and throws a [TypeError] that nothing
    catches. *)
Theorem C6_empty_text_render_throws :
  let ev := RequestSettled 0 (Gemini.Fulfilled (Some EmptyString))
              "0.4fzyo82mvyr" "Nov 3, 2026" in
  let st := run sampleState [ev; TimeoutFired] in
  sampleState = run initial [ContextInput "Budget review"; GenerateClick] /\
  JSON.parse EmptyString = Throw (SyntaxError "Unexpected token or end of JSON input") /\
  fst (dispatch ev sampleState) = Return tt /\
  step st = REPORT /\
  View.panels st
  = [ View.ReportDetail [ ("id", JString "4fzyo82mv"); ("date", JString "Nov 3, 2026");
                          ("title", JString "Untitled Session") ] ] /\
  View.mainArea st = inl (View.CannotRead "overview").
Proof. split; [reflexivity|]. vm_compute. repeat split. Qed.

(** What the claim says of [startAnalysis] holds.  A response whose text is
    not valid JSON never makes the continuation of [startAnalysis] complete
    abruptly.  When the text is not empty nothing is thrown at all: the
    parse error is caught, logged and alerted, the session is back at the
    input step with the report and the history unchanged, and the main area
    then evaluates without error.  When the text is empty a report with no
    fields but [id], [date] and [title] is stored. *)
Lemma startAnalysis_handles_invalid_json (st : AppState) (k : nat) (a : Analysis)
    (response_text random36 today : string) (e : JsError) :
  reachable st ->
  analyses st !! k = Some a ->
  JSON.parse response_text = Throw e ->
  let ev := RequestSettled k (Gemini.Fulfilled (Some response_text)) random36 today in
  fst (dispatch ev st) = Return tt /\
  ((Js.truthy response_text = true /\
    step (react st ev) = INPUT /\
    alerts (react st ev) = alerts st ++ ["Failed to generate report. Please try again."] /\
    console (react st ev) = console st ++ [("Analysis failed:", e)] /\
    report (react st ev) = report st /\
    reportsHistory (react st ev) = reportsHistory st /\
    exists shown, View.mainArea (react st ev) = inr shown)
   \/
   (response_text = EmptyString /\
    let rep := [ ("id", JString (Browser.substr 2 9 random36));
                 ("date", JString today);
                 ("title", JString (sessionTitle (closure_files a))) ] in
    report (react st ev) = Some rep /\
    reportsHistory (react st ev) = rep :: reportsHistory st)).
Proof.
  intros Hreach Ha Hparse ev. split; [apply dispatch_returns|].
  destruct (wf_awaited st k a (wf_reachable st Hreach) Ha) as [_ (n & c & Hcall)].
  destruct response_text as [|ch rest].
  - right. split; [reflexivity|].
    assert (Hres : Gemini.resume (awaited a) (Gemini.Fulfilled (Some EmptyString))
                   = Return (JObject [])) by (rewrite Hcall; reflexivity).
    subst ev. unfold react. rewrite (settle_success _ _ _ _ _ _ _ Ha Hres).
    cbn. split; reflexivity.
  - left. split; [reflexivity|].
    assert (Hres : Gemini.resume (awaited a)
                     (Gemini.Fulfilled (Some (String ch rest))) = Throw e)
      by (rewrite Hcall; exact Hparse).
    subst ev. unfold react. rewrite (settle_failure _ _ _ _ _ _ _ Ha Hres).
    cbn. repeat split.
    unfold View.mainArea, View.panels, View.reportsListShown, View.inputFormShown.
    cbn. destruct (activeTab st); eexists; reflexivity.
Qed.

Lemma startAnalysis_handles_invalid_json_sample :
  let ev := RequestSettled 0 (Gemini.Fulfilled (Some "Sorry, I cannot help with that."))
              "0.4fzyo82mvyr" "Nov 3, 2026" in
  fst (dispatch ev sampleState) = Return tt /\ step (react sampleState ev) = INPUT.
Proof.
  intros ev.
  destruct (startAnalysis_handles_invalid_json sampleState 0 sampleAnalysis
              "Sorry, I cannot help with that." "0.4fzyo82mvyr" "Nov 3, 2026"
              (SyntaxError "Unexpected token or end of JSON input")
              (ex_intro _ [ContextInput "Budget review"; GenerateClick] eq_refl)
              eq_refl eq_refl) as [Hret [(_ & Hstep & _)|(Hempty & _)]].
  - split; [exact Hret|exact Hstep].
  - discriminate Hempty.
Defined.

(** ** The title *)

Section Title.

Lemma split_head (name : string) :
  Js.split "."%char name !! 0%nat = Some (beforeFirstDot name).
Proof.
  induction name as [|c r IH]; cbn; [reflexivity|].
  destruct (Ascii.eqb c "."%char); [reflexivity|].
  destruct (Js.split "."%char r) as [|p ps]; [discriminate|].
  cbn in IH. injection IH as ->. reflexivity.
Qed.

(** The title by cases on the first file. *)
Lemma sessionTitle_cases (fs : list UploadedFile) :
  sessionTitle fs
  = match fs with
    | [] => "Untitled Session"
    | f :: _ =>
        if Js.truthy (beforeFirstDot (name f)) then beforeFirstDot (name f)
        else "Untitled Session"
    end.
Proof.
  destruct fs as [|f fs]; [reflexivity|].
  unfold sessionTitle. cbn [lookup list_lookup]. rewrite split_head. reflexivity.
Qed.

(** For a name made of a non-empty stem and at most one extension, what the
    code takes is the name with its extension removed. *)
Lemma beforeFirstDot_stem (stem rest : string) :
  Js.lacks "."%char stem = true ->
  beforeFirstDot (stem +:+ String "."%char rest) = stem.
Proof.
  induction stem as [|c r IH]; simpl; [reflexivity|].
  destruct (Ascii.eqb c "."%char); simpl; [discriminate|].
  intros H. rewrite (IH H). reflexivity.
Qed.

Lemma baseName_stem (stem ext : string) :
  Js.lacks "."%char stem = true -> Js.lacks "."%char ext = true ->
  baseName (stem +:+ String "."%char ext) = stem.
Proof.
  intros Hs He. induction stem as [|c r IH]; simpl.
  - rewrite He. reflexivity.
  - simpl in Hs. destruct (Ascii.eqb c "."%char); simpl in *; [discriminate|].
    rewrite (IH Hs). reflexivity.
Qed.

(** So for such a name the title is the name without its extension. *)
Lemma sessionTitle_simple_name (stem ext mime payload : string)
    (more : list UploadedFile) :
  Js.lacks "."%char stem = true -> Js.lacks "."%char ext = true ->
  Js.truthy stem = true ->
  let fs := {| name := stem +:+ String "."%char ext; type := mime; data := payload |}
            :: more in
  sessionTitle fs = stem /\ describedTitle fs = stem.
Proof.
  intros Hs He Ht fs. subst fs. rewrite sessionTitle_cases. cbn [name describedTitle].
  rewrite (beforeFirstDot_stem _ _ Hs), (baseName_stem _ _ Hs He), Ht. split; reflexivity.
Qed.

End Title.

(** C7, as stated, fails.  For a file named [Q4.v2.pdf] the stored title is
    [Q4], not the name without its extension, [Q4.v2]; for a file named
    [.pdf] it is the default title although a file was uploaded. *)
Lemma C7_counterexample :
  let st1 := run initial (sessionWith versionedDeck) in
  let st2 := run initial (sessionWith dotFile) in
  (Obj.get "title" <$> report st1) = Some (Some (JString "Q4")) /\
  describedTitle (files st1) = "Q4.v2" /\
  (Obj.get "title" <$> report st2) = Some (Some (JString "Untitled Session")) /\
  length (files st2) = 1%nat /\
  describedTitle (files st2) = EmptyString.
Proof. vm_compute. repeat split. Qed.

(** C7, amended.  The title of the report a successful session stores is the
    part of the first uploaded file's name that precedes its first dot (the
    whole name when it has none) when that part is not empty, and
    [Untitled Session] when no file was uploaded or that part is empty. *)
Theorem C7_title (st : AppState) (k : nat) (a : Analysis)
    (outcome : Gemini.Outcome) (random36 today : string) (result : json) :
  analyses st !! k = Some a ->
  Gemini.resume (awaited a) outcome = Return result ->
  let st' := react st (RequestSettled k outcome random36 today) in
  exists rep,
    report st' = Some rep /\
    reportsHistory st' = rep :: reportsHistory st /\
    Obj.get "title" rep
    = Some (JString
              match closure_files a with
              | [] => "Untitled Session"
              | f :: _ =>
                  if Js.truthy (beforeFirstDot (name f)) then beforeFirstDot (name f)
                  else "Untitled Session"
              end).
Proof.
  intros Ha Hr st'. subst st'. unfold react.
  rewrite (settle_success _ _ _ _ _ _ _ Ha Hr). cbn.
  eexists. repeat split.
  rewrite <- sessionTitle_cases. unfold finalReport. apply get_set_eq.
Qed.

Lemma C7_title_witness :
  let st := run initial [ FileInputChange [deck] "slides"; ReaderLoaded 0; GenerateClick ] in
  let st' := react st (RequestSettled 0 (Gemini.Fulfilled (Some "{}"))
                         "0.4fzyo82mvyr" "Nov 3, 2026") in
  exists rep, report st' = Some rep /\ Obj.get "title" rep = Some (JString "deck").
Proof.
  intros st st'.
  destruct (C7_title st 0
              {| closure_files := files st; closure_interval := 1;
                 awaited := Gemini.generateMeetingIntelligence EmptyString EmptyString
                              EmptyString (map toPayload (files st)) |}
              (Gemini.Fulfilled (Some "{}")) "0.4fzyo82mvyr" "Nov 3, 2026"
              (JObject []) eq_refl eq_refl) as (rep & Hrep & _ & Htitle).
  exists rep. split; [exact Hrep|exact Htitle].
Defined.

(** ** The progress timer *)

(** C8. When the request of a session settles, whatever its outcome, the
    interval that session started is cleared, it is never live again, and
    its timer firing changes nothing from then on. *)
Theorem C8_interval_cleared (st : AppState) (k : nat) (a : Analysis)
    (outcome : Gemini.Outcome) (random36 today : string) :
  reachable st ->
  analyses st !! k = Some a ->
  let st' := react st (RequestSettled k outcome random36 today) in
  intervals st' !! closure_interval a = None /\
  forall (evs : list Event) (random : Q),
    intervals (run st' evs) !! closure_interval a = None /\
    react (run st' evs) (IntervalFired (closure_interval a) random) = run st' evs.
Proof.
  intros Hreach Ha st'.
  destruct (wf_awaited st k a (wf_reachable st Hreach) Ha) as [Hlt _].
  assert (Hnone : intervals st' !! closure_interval a = None).
  { subst st'. unfold react.
    destruct (Gemini.resume (awaited a) outcome) as [result|e] eqn:Hr.
    - rewrite (settle_success _ _ _ _ _ _ _ Ha Hr). cbn. apply lookup_delete_eq.
    - rewrite (settle_failure _ _ _ _ _ _ _ Ha Hr). cbn. apply lookup_delete_eq. }
  assert (Hlt' : (closure_interval a < nextTimer st')%nat).
  { pose proof (nextTimer_mono st (RequestSettled k outcome random36 today)).
    subst st'. lia. }
  split; [exact Hnone|]. intros evs random.
  pose proof (interval_cleared_forever _ evs st' Hnone Hlt') as H.
  split; [exact H|]. apply cleared_interval_silent, H.
Qed.

Lemma C8_interval_cleared_witness :
  intervals sampleState !! 1%nat = Some 0%nat /\
  let st' := react sampleState
               (RequestSettled 0 (Gemini.Rejected (ServiceError "quota exceeded"))
                  "0.4fzyo82mvyr" "Nov 3, 2026") in
  intervals st' !! 1%nat = None /\
  react (run st' [NavGenerateClick; GenerateClick]) (IntervalFired 1 (1 # 2))
  = run st' [NavGenerateClick; GenerateClick].
Proof.
  split; [reflexivity|]. intros st'.
  destruct (C8_interval_cleared sampleState 0 sampleAnalysis
              (Gemini.Rejected (ServiceError "quota exceeded"))
              "0.4fzyo82mvyr" "Nov 3, 2026"
              (ex_intro _ [ContextInput "Budget review"; GenerateClick] eq_refl)
              eq_refl) as [Hnone Hafter].
  split; [exact Hnone|].
  exact (proj2 (Hafter [NavGenerateClick; GenerateClick] (1 # 2))).
Defined.

(** ** The requests the application issues *)

(** C9. Every request the application has sent was built by a call of
    [generateMeetingIntelligence] whose slides argument is the empty string:
    its instruction part embeds an empty slides text, and the uploaded files
    travel as attachments only. *)
Theorem C9_slides_text_empty (evs : list Event) (r : Gemini.Request) :
  r ∈ outbox (run initial evs) ->
  exists (notes context : string) (files : list UploadedFile),
    r = Gemini.request
          (Gemini.generateMeetingIntelligence notes EmptyString context
             (map toPayload files)) /\
    Gemini.contents r
    = [ {| Gemini.parts :=
             Gemini.text (Gemini.instruction notes EmptyString context)
             :: map attachment (map toPayload files) |} ].
Proof.
  intros H.
  destruct (wf_outbox _ (wf_run evs initial wf_initial) r H) as (n & c & fs & ->).
  exists n, c, fs. split; [reflexivity|]. apply request_parts.
Qed.

Lemma C9_slides_text_empty_witness :
  exists (notes context : string) (files : list UploadedFile),
    Gemini.request (awaited sampleAnalysis)
    = Gemini.request
        (Gemini.generateMeetingIntelligence notes EmptyString context
           (map toPayload files)) /\
    Gemini.contents (Gemini.request (awaited sampleAnalysis))
    = [ {| Gemini.parts :=
             Gemini.text (Gemini.instruction notes EmptyString context)
             :: map attachment (map toPayload files) |} ].
Proof.
  apply (C9_slides_text_empty [ContextInput "Budget review"; GenerateClick]).
  apply list_elem_of_here.
Defined.

(** ** File selection *)

Section FileSelection.

Lemma remove_last {A : Type} (l : list A) (x : A) :
  remove_nth (length l) (l ++ [x]) = l.
Proof.
  unfold remove_nth. rewrite take_app_length.
  rewrite drop_ge by (rewrite length_app; cbn; lia). apply app_nil_r.
Qed.

(** When a reader finishes, whenever that is, one entry for its file goes to
    the end of the collected files and nothing else changes. *)
Lemma reader_loaded_appends (st : AppState) (k : nat) (file : Browser.File) :
  readers st !! k = Some file ->
  react st (ReaderLoaded k)
  = with_readers (remove_nth k (readers st))
      (with_files
         (files st ++ [ {| name := Browser.file_name file;
                           type := Browser.file_type file;
                           data := Browser.readAsDataURL file |} ]) st).
Proof.
  intros H. unfold react, dispatch, bind, get. rewrite H. reflexivity.
Qed.

End FileSelection.

(** C10. A selection event with no file changes nothing.  Otherwise it
    starts one reader, for the first file of the selection, and changes
    nothing else; when that reader has loaded, one entry with the file's
    name, type and data URL is at the end of the collected files, and the
    earlier files, the notes and the context are as before; when it fails,
    no entry is added. *)
Theorem C10_file_selection (st : AppState) (selection : list Browser.File)
    (kind : string) :
  let st1 := react st (FileInputChange selection kind) in
  match selection with
  | [] => st1 = st
  | file :: _ =>
      let entry := {| name := Browser.file_name file;
                      type := Browser.file_type file;
                      data := Browser.readAsDataURL file |} in
      let st2 := react st1 (ReaderLoaded (length (readers st))) in
      st1 = with_readers (readers st ++ [file]) st /\
      st2 = with_files (files st ++ [entry]) st /\
      files st2 = files st ++ [entry] /\
      notes st2 = notes st /\
      context st2 = context st /\
      react st1 (ReaderFailed (length (readers st))) = st
  end.
Proof.
  destruct selection as [|file rest]; cbv zeta.
  - destruct st; reflexivity.
  - assert (H1 : react st (FileInputChange (file :: rest) kind)
                 = with_readers (readers st ++ [file]) st) by reflexivity.
    rewrite H1.
    assert (H2 : react (with_readers (readers st ++ [file]) st)
                   (ReaderLoaded (length (readers st)))
                 = with_files
                     (files st ++ [ {| name := Browser.file_name file;
                                       type := Browser.file_type file;
                                       data := Browser.readAsDataURL file |} ]) st).
    { rewrite (reader_loaded_appends _ _ file).
      - cbn. rewrite remove_last. destruct st; reflexivity.
      - cbn. apply list_lookup_middle. reflexivity. }
    rewrite H2. repeat split.
    unfold react, dispatch, bind, get, update. cbn.
    rewrite remove_last. destruct st; reflexivity.
Qed.

(** Uploading a file and sending it: the attachment carries the base64 text
    of the file and its declared type. *)
Example upload_sample :
  let st := run initial [ FileInputChange [deck; versionedDeck] "slides"; ReaderLoaded 0 ] in
  files st = [ {| name := "deck.pptx";
                  type := "application/vnd.openxmlformats-officedocument.presentationml.presentation";
                  data := "data:application/vnd.openxmlformats-officedocument.presentationml.presentation;base64,UEs=" |} ] /\
  map attachment (map toPayload (files st))
  = [ Gemini.inlineData "UEs="
        "application/vnd.openxmlformats-officedocument.presentationml.presentation" ].
Proof. vm_compute. split; reflexivity. Qed.

(** * Further properties of the code *)

(** ** The request client *)

Section Client.

Lemma segments_three (p m rest : string) :
  Js.lacks ","%char p = true -> Js.lacks ","%char m = true ->
  Js.split ","%char (p +:+ String ","%char (m +:+ String ","%char rest))
  = p :: m :: Js.split ","%char rest.
Proof.
  intros Hp Hm. rewrite (split_at_first _ _ _ Hp), (split_at_first _ _ _ Hm).
  reflexivity.
Qed.

End Client.

(** X1. Whatever its arguments, a call of [generateMeetingIntelligence]
    builds a request for the model [gemini-3.1-pro-preview] that asks for
    JSON under [reportSchema] and has a single content; its parts are the
    instruction followed by one attachment per file, so there is one part
    more than there are files, and the attachment at position [i + 1] has the
    media type of the file at position [i]. *)
Theorem request_payload_shape (notes slides context : string)
    (files : list Gemini.FilePayload) :
  let r := Gemini.request (Gemini.generateMeetingIntelligence notes slides context files) in
  Gemini.model r = "gemini-3.1-pro-preview" /\
  Gemini.responseMimeType (Gemini.config r) = "application/json" /\
  Gemini.responseSchema (Gemini.config r) = Gemini.reportSchema /\
  exists ps,
    Gemini.contents r = [ {| Gemini.parts := ps |} ] /\
    length ps = S (length files) /\
    ps !! 0%nat = Some (Gemini.text (Gemini.instruction notes slides context)) /\
    forall i f, files !! i = Some f ->
      ps !! S i = Some (Gemini.inlineData (Gemini.attachmentData (Gemini.data f))
                          (Gemini.mimeType f)).
Proof.
  cbv zeta. repeat split.
  exists (Gemini.text (Gemini.instruction notes slides context) :: map attachment files).
  split; [apply request_parts|]. split; [cbn; rewrite length_map; reflexivity|].
  split; [reflexivity|]. intros i f H. simpl. rewrite list_lookup_fmap, H. reflexivity.
Qed.

(** X2. The attachment data is what follows the first comma of the payload
    exactly when that text is not empty and has no further comma, and is
    the payload itself when the payload has no comma. *)
Theorem attachmentData_payload (d : string) :
  match afterPrefix d with
  | Some payload => Js.truthy payload && Js.lacks ","%char payload
  | None => true
  end = true ->
  Gemini.attachmentData d
  = match afterPrefix d with
    | Some payload => payload
    | None => d
    end.
Proof. intros H. rewrite (attachmentData_withoutPrefix d H). reflexivity. Qed.

Lemma attachmentData_payload_witness :
  Gemini.attachmentData "data:application/pdf;base64,JVBERg==" = "JVBERg=="
  /\ Gemini.attachmentData "JVBERg==" = "JVBERg==".
Proof.
  split.
  - exact (attachmentData_payload "data:application/pdf;base64,JVBERg==" eq_refl).
  - exact (attachmentData_payload "JVBERg==" eq_refl).
Defined.

(** X3. Of a payload with two or more commas only the text between the
    first and the second comma is sent, when it is not empty: what follows
    the second comma is dropped. *)
Theorem attachmentData_second_segment (p m rest : string) :
  Js.lacks ","%char p = true ->
  Js.lacks ","%char m = true ->
  Js.truthy m = true ->
  Gemini.attachmentData (p +:+ String ","%char (m +:+ String ","%char rest)) = m.
Proof.
  intros Hp Hm Ht. unfold Gemini.attachmentData.
  rewrite (segments_three _ _ _ Hp Hm). cbn. rewrite Ht. reflexivity.
Qed.

Lemma attachmentData_second_segment_witness :
  Gemini.attachmentData "data:text/csv,a,b,c" = "a".
Proof.
  exact (attachmentData_second_segment "data:text/csv" "a" "b,c" eq_refl eq_refl eq_refl).
Defined.

(** ** Timers and requests in flight *)

Section InFlight.

Import Trace.

Lemma elem_of_remove_nth_other {A : Type} (k : nat) (l : list A) (x y : A) :
  l !! k = Some y -> x ∈ l -> x <> y -> x ∈ remove_nth k l.
Proof.
  intros Hk Hx Hne. apply list_elem_of_lookup in Hx. destruct Hx as [i Hi].
  unfold remove_nth. apply elem_of_app.
  destruct (lt_eq_lt_dec i k) as [[Hlt| ->]|Hgt].
  - left. apply list_elem_of_lookup. exists i.
    rewrite lookup_take_lt by exact Hlt. exact Hi.
  - congruence.
  - right. apply list_elem_of_lookup. exists (i - S k)%nat.
    rewrite lookup_drop. replace (S k + (i - S k))%nat with i by lia. exact Hi.
Qed.

Lemma remove_nth_sublist {A : Type} (k : nat) (l : list A) :
  sublist (remove_nth k l) l.
Proof.
  unfold remove_nth. rewrite <- (take_drop k l) at 3.
  apply sublist_app; [reflexivity|].
  replace (drop (S k) l) with (drop 1 (drop k l))
    by (rewrite drop_drop; f_equal; lia).
  apply sublist_drop.
Qed.

Lemma length_remove_nth {A : Type} (k : nat) (l : list A) (x : A) :
  l !! k = Some x -> S (length (remove_nth k l)) = length l.
Proof.
  intros H. apply lookup_lt_Some in H. unfold remove_nth.
  rewrite List.length_app, length_take, length_drop. lia.
Qed.

Lemma tidy_initial : tidy initial.
Proof.
  split; cbn.
  - intros id cs H. rewrite lookup_empty in H. discriminate.
  - constructor.
Qed.

Lemma tidy_react (st : AppState) (ev : Event) :
  wf st -> tidy st -> tidy (react st ev).
Proof.
  intros Hwf [Hlive Hdis]. split.
  - revert Hlive. by_event ev st ltac:(intros Hlive; try exact Hlive).
    + intros id cs H. apply lookup_insert_Some in H. destruct H as [[<- _]|[_ H]].
      * eexists. split; [apply elem_of_app; right; apply list_elem_of_singleton; reflexivity|].
        reflexivity.
      * destruct (Hlive id cs H) as (a' & Hin & Hid).
        exists a'. split; [apply elem_of_app; left; exact Hin|exact Hid].
    + intros id cs H. apply lookup_delete_Some in H. destruct H as [Hne H].
      destruct (Hlive id cs H) as (a' & Hin & Hid).
      exists a'. split; [|exact Hid].
      eapply elem_of_remove_nth_other; [eassumption|exact Hin|congruence].
    + intros id cs H. apply lookup_delete_Some in H. destruct H as [Hne H].
      destruct (Hlive id cs H) as (a' & Hin & Hid).
      exists a'. split; [|exact Hid].
      eapply elem_of_remove_nth_other; [eassumption|exact Hin|congruence].
    + intros id0 cs H. apply lookup_delete_Some in H. destruct H as [_ H].
      exact (Hlive id0 cs H).
  - revert Hdis. by_event ev st ltac:(intros Hdis; try exact Hdis).
    + rewrite fmap_app. apply NoDup_app. split; [exact Hdis|]. split; [|apply NoDup_singleton].
      intros x Hx Hx'. apply list_elem_of_singleton in Hx'. subst x.
      apply list_elem_of_fmap in Hx. destruct Hx as (a' & Heq & Hin).
      destruct (wf_analyses st Hwf a' Hin) as [Hlt _]. cbn in Heq, Hlt. lia.
    + eapply sublist_NoDup; [exact Hdis|]. apply fmap_sublist, remove_nth_sublist.
    + eapply sublist_NoDup; [exact Hdis|]. apply fmap_sublist, remove_nth_sublist.
Qed.

Lemma tidy_run (evs : list Event) (st : AppState) :
  wf st -> tidy st -> tidy (run st evs).
Proof.
  revert st. induction evs as [|ev evs IH]; intros st Hwf Ht; [exact Ht|].
  change (run st (ev :: evs)) with (run (react st ev) evs).
  apply IH; [apply wf_react, Hwf|apply tidy_react; assumption].
Qed.

Lemma outbox_length_react (st : AppState) (ev : Event) :
  length (outbox (react st ev))
  = (length (outbox st) + generateClicks [ev])%nat.
Proof.
  by_event ev st ltac:(try lia).
  rewrite List.length_app. cbn. lia.
Qed.

Lemma generateClicks_cons (ev : Event) (evs : list Event) :
  generateClicks (ev :: evs) = (generateClicks [ev] + generateClicks evs)%nat.
Proof. destruct ev; reflexivity. Qed.

Lemma outbox_length_run (evs : list Event) (st : AppState) :
  length (outbox (run st evs)) = (length (outbox st) + generateClicks evs)%nat.
Proof.
  revert st. induction evs as [|ev evs IH]; intros st; [cbn; lia|].
  change (run st (ev :: evs)) with (run (react st ev) evs).
  rewrite IH, outbox_length_react, (generateClicks_cons ev evs). lia.
Qed.

(** Requests sent = calls suspended + calls resumed, one step at a time. *)
Lemma in_flight_react (st : AppState) (ev : Event) :
  (length (outbox (react st ev)) + length (analyses st) + settled st [ev]
   = length (outbox st) + length (analyses (react st ev)) + 2 * settled st [ev])%nat.
Proof.
  destruct ev; try (handler_cases; lia).
  - handler_cases. rewrite !List.length_app. cbn. lia.
  - unfold settled. settle_cases st k outcome; cbn.
    + pose proof (length_remove_nth _ _ _ Ha). lia.
    + pose proof (length_remove_nth _ _ _ Ha). lia.
    + lia.
Qed.

Lemma settled_cons (st : AppState) (ev : Event) (evs : list Event) :
  settled st (ev :: evs) = (settled st [ev] + settled (react st ev) evs)%nat.
Proof.
  destruct ev; try reflexivity. cbn. destruct (analyses st !! k); cbn; lia.
Qed.

Lemma in_flight_run (evs : list Event) (st : AppState) :
  (length (outbox (run st evs)) + length (analyses st)
   = length (outbox st) + length (analyses (run st evs)) + settled st evs)%nat.
Proof.
  revert st. induction evs as [|ev evs IH]; intros st; [cbn; lia|].
  change (run st (ev :: evs)) with (run (react st ev) evs).
  rewrite (settled_cons st ev evs).
  pose proof (IH (react st ev)). pose proof (in_flight_react st ev). lia.
Qed.

End InFlight.

(** X4. In every state the application can reach, each live progress
    interval belongs to a call that is still suspended, and no two suspended
    calls share an interval; so when no call is in flight no interval is
    live. *)
Theorem intervals_accounted_for (st : AppState) :
  reachable st ->
  (forall id cs, intervals st !! id = Some cs ->
     exists a, a ∈ analyses st /\ closure_interval a = id) /\
  NoDup (closure_interval <$> analyses st) /\
  (analyses st = [] -> intervals st = ∅).
Proof.
  intros [evs ->].
  destruct (tidy_run evs initial wf_initial tidy_initial) as [Hlive Hdis].
  split; [exact Hlive|]. split; [exact Hdis|].
  intros Hnone. apply map_empty. intros id.
  destruct (intervals (run initial evs) !! id) as [cs|] eqn:E; [|reflexivity].
  destruct (Hlive id cs E) as (a & Hin & _). rewrite Hnone in Hin.
  apply elem_of_nil in Hin. contradiction.
Qed.

Lemma intervals_accounted_for_witness :
  (forall id cs, intervals sampleState !! id = Some cs ->
     exists a, a ∈ analyses sampleState /\ closure_interval a = id) /\
  NoDup (closure_interval <$> analyses sampleState) /\
  (analyses sampleState = [] -> intervals sampleState = ∅).
Proof.
  apply (intervals_accounted_for sampleState).
  exists [ContextInput "Budget review"; GenerateClick]. reflexivity.
Defined.

(** X5. The application sends exactly one request per click on the generate
    button, and every request it has sent belongs to a call that is either
    still suspended or has been resumed by a settlement: requests sent =
    calls in flight + settlements. *)
Theorem one_request_per_click (evs : list Event) :
  length (outbox (run initial evs)) = Trace.generateClicks evs /\
  length (outbox (run initial evs))
  = (length (analyses (run initial evs)) + Trace.settled initial evs)%nat.
Proof.
  split.
  - rewrite outbox_length_run. reflexivity.
  - pose proof (in_flight_run evs initial) as H. cbn in H. cbn. lia.
Qed.

(** ** Moving between the views while work is pending *)

(** X6. Moving between the views, opening a report, starting a new session
    or typing in the context area never cancels anything: the calls in
    flight, the live intervals, the pending timeouts, the file readers, the
    requests sent and the history are exactly as before. *)
Theorem navigation_keeps_work (st : AppState) (ev : Event) :
  Trace.navigation ev = true ->
  analyses (react st ev) = analyses st /\
  intervals (react st ev) = intervals st /\
  timeouts (react st ev) = timeouts st /\
  readers (react st ev) = readers st /\
  outbox (react st ev) = outbox st /\
  reportsHistory (react st ev) = reportsHistory st.
Proof.
  destruct ev; try discriminate; intros _; handler_cases; repeat split.
Qed.

Lemma navigation_keeps_work_witness :
  analyses (react sampleState NewSessionClick) = analyses sampleState /\
  intervals (react sampleState NewSessionClick) = intervals sampleState /\
  timeouts (react sampleState NewSessionClick) = timeouts sampleState /\
  readers (react sampleState NewSessionClick) = readers sampleState /\
  outbox (react sampleState NewSessionClick) = outbox sampleState /\
  reportsHistory (react sampleState NewSessionClick) = reportsHistory sampleState.
Proof. exact (navigation_keeps_work sampleState NewSessionClick eq_refl). Defined.

Section Flows.

Lemma react_settle_success (st : AppState) (k : nat) (a : Analysis)
    (outcome : Gemini.Outcome) (random36 today : string) (result : json) :
  analyses st !! k = Some a ->
  Gemini.resume (awaited a) outcome = Return result ->
  react st (RequestSettled k outcome random36 today)
  = snd (Return tt,
         let rep := finalReport result random36 today (closure_files a) in
         {| activeTab := activeTab st; step := step st; notes := notes st;
            context := context st; files := files st;
            report := Some rep; reportsHistory := rep :: reportsHistory st;
            analysisProgress := 100; currentAnalysisStep := 3;
            readers := readers st;
            intervals := delete (closure_interval a) (intervals st);
            nextTimer := S (nextTimer st); timeouts := S (timeouts st);
            analyses := remove_nth k (analyses st); outbox := outbox st;
            alerts := alerts st; console := console st |}).
Proof.
  intros Ha Hr. unfold react. rewrite (settle_success _ _ _ _ _ _ _ Ha Hr). reflexivity.
Qed.

End Flows.





(** X9. When a session has succeeded and a new session is started before
    its one-second timeout fires, the timeout still switches to the report
    step, where there is no report any more: no block of the main area is
    shown, under the heading "Intelligence Portal". *)
Theorem late_timeout_blanks_view (st : AppState) (k : nat) (a : Analysis)
    (outcome : Gemini.Outcome) (random36 today : string) (result : json) :
  analyses st !! k = Some a ->
  Gemini.resume (awaited a) outcome = Return result ->
  let st' := run st [ RequestSettled k outcome random36 today; NewSessionClick;
                      TimeoutFired ] in
  step st' = REPORT /\ report st' = None /\
  View.panels st' = [] /\
  View.headerTitle (activeTab st') (step st') = "Intelligence Portal".
Proof.
  intros Ha Hr. cbv zeta. unfold run. cbn [fold_left].
  rewrite (react_settle_success _ _ _ _ _ _ _ Ha Hr). cbn. repeat split.
Qed.

Lemma late_timeout_blanks_view_witness :
  View.panels
    (run sampleState
       [ RequestSettled 0 (Gemini.Fulfilled (Some "{}")) "0.4fzyo82mvyr" "Nov 3, 2026";
         NewSessionClick; TimeoutFired ]) = [].
Proof.
  exact (proj1 (proj2 (proj2
    (late_timeout_blanks_view sampleState 0 sampleAnalysis
       (Gemini.Fulfilled (Some "{}")) "0.4fzyo82mvyr" "Nov 3, 2026"
       (JObject []) eq_refl eq_refl)))).
Defined.

(** ** Where the content of a request comes from *)

Section Sources.

Import Trace.

Lemma follows_initial : follows noInputs initial.
Proof. split; reflexivity. Qed.

Lemma follows_react (inp : Inputs) (st : AppState) (ev : Event) :
  follows inp st -> follows (collect inp ev) (react st ev).
Proof.
  intros [Hr Hc Hf Hn].
  destruct ev;
    [ | | | | | settle_cases st k outcome | | | | | | | ];
    try handler_cases; cbn [collect];
    try (split; cbn; congruence).
  match goal with
  | H1 : reading inp !! k = Some ?f, H2 : readers st !! k = Some ?f0 |- _ =>
      assert (f0 = f) by congruence; subst f0
  end.
  split; cbn; try congruence. rewrite Hf, map_app. reflexivity.
Qed.

Lemma outbox_react (inp : Inputs) (st : AppState) (ev : Event) :
  follows inp st ->
  outbox (react st ev)
  = outbox st ++ match ev with GenerateClick => [requestFor inp] | _ => [] end.
Proof.
  intros [Hr Hc Hf Hn].
  destruct ev;
    [ | | | | | settle_cases st k outcome | | | | | | | ];
    try handler_cases; cbn; rewrite ?app_nil_r; try reflexivity.
  unfold requestFor. rewrite Hn, Hc, Hf. reflexivity.
Qed.

Lemma outbox_run (evs : list Event) (inp : Inputs) (st : AppState) :
  follows inp st -> outbox (run st evs) = outbox st ++ sent inp evs.
Proof.
  revert inp st. induction evs as [|ev evs IH]; intros inp st H.
  - cbn. rewrite app_nil_r. reflexivity.
  - change (run st (ev :: evs)) with (run (react st ev) evs).
    rewrite (IH _ _ (follows_react inp st ev H)), (outbox_react inp st ev H).
    cbn [sent]. rewrite <- app_assoc. reflexivity.
Qed.

End Sources.

(** X10. The requests a run has sent are exactly, in order, those for what
    had been entered at each click on the generate button: no notes and no
    slides text, the context text typed last since the last new session,
    and one attachment for each file whose read had finished since then, in
    the order in which the reads finished, made of the file's data URL
    ([split(',')[1] || data]) and of its declared type.  For a file that is
    not empty and whose type has no comma, the attachment data is the base64
    text of the file's bytes. *)
Theorem requests_come_from_uploads (evs : list Event) :
  outbox (run initial evs) = Trace.sent Trace.noInputs evs /\
  forall inp : Trace.Inputs,
    Gemini.contents (Trace.requestFor inp)
    = [ {| Gemini.parts :=
             Gemini.text (Gemini.instruction EmptyString EmptyString (Trace.typed inp))
             :: map (fun file =>
                       Gemini.inlineData
                         (Gemini.attachmentData (Browser.readAsDataURL file))
                         (Browser.file_type file)) (Trace.chosen inp) |} ] /\
    forall file, file ∈ Trace.chosen inp ->
      Js.truthy (Browser.file_bytes file) = true ->
      Js.lacks ","%char (Browser.file_type file) = true ->
      Gemini.attachmentData (Browser.readAsDataURL file)
      = Browser.base64 (Browser.file_bytes file).
Proof.
  split.
  - exact (outbox_run evs Trace.noInputs initial follows_initial).
  - intros inp. split.
    + unfold Trace.requestFor. rewrite request_parts, !map_map. reflexivity.
    + intros file _ Hb Ht. apply upload_attachmentData; assumption.
Qed.

Lemma requests_come_from_uploads_witness :
  let evs := [ FileInputChange [deck] "slides"; ContextInput "Q4 planning";
               ReaderLoaded 0; GenerateClick ] in
  let inp := {| Trace.typed := "Q4 planning"; Trace.reading := []; Trace.chosen := [deck] |} in
  outbox (run initial evs) = [Trace.requestFor inp] /\
  Gemini.attachmentData (Browser.readAsDataURL deck) = Browser.base64 (Browser.file_bytes deck).
Proof.
  intros evs inp. split.
  - exact (proj1 (requests_come_from_uploads evs)).
  - apply (proj2 (proj2 (requests_come_from_uploads evs) inp) deck).
    + left.
    + reflexivity.
    + reflexivity.
Defined.

(** Two files, the second of which finishes first, and a context text: the
    request carries the text and both attachments, in the order of loading. *)
Example requests_sample :
  map Gemini.contents
    (outbox (run initial [ FileInputChange [deck] "slides";
                           FileInputChange [versionedDeck] "notes";
                           ReaderLoaded 1; ContextInput "Q4 planning";
                           ReaderLoaded 0; GenerateClick ]))
  = [ [ {| Gemini.parts :=
             [ Gemini.text (Gemini.instruction EmptyString EmptyString "Q4 planning");
               Gemini.inlineData "JVBERg==" "application/pdf";
               Gemini.inlineData "UEs="
                 "application/vnd.openxmlformats-officedocument.presentationml.presentation" ] |} ] ].
Proof. vm_compute. reflexivity. Qed.

(** ** The report on display and the archive *)

Section Archive.

Import Trace.

Lemma sessionTitle_truthy (fs : list UploadedFile) : Js.truthy (sessionTitle fs) = true.
Proof.
  unfold sessionTitle, Js.or_else.
  destruct (match fs !! 0%nat with Some f => _ | None => None end) as [t|]; [|reflexivity].
  destruct (Js.truthy t) eqn:E; [exact E|reflexivity].
Qed.

Lemma finalReport_titled (result : json) (random36 today : string)
    (fs : list UploadedFile) :
  titled (finalReport result random36 today fs).
Proof.
  destruct (finalReport_fields result random36 today fs) as (Hi & Hd & Ht & _).
  eexists _, _, _. repeat split; try eassumption. apply sessionTitle_truthy.
Qed.

Lemma completes_titled (st : AppState) (ev : Event) (rep : Obj.t) :
  completes st ev = Some rep -> titled rep.
Proof.
  destruct ev; try discriminate. cbn.
  destruct (analyses st !! k) as [a|]; [|discriminate].
  destruct (Gemini.resume (awaited a) outcome); [|discriminate].
  intros [= <-]. apply finalReport_titled.
Qed.

Lemma archive_titled_run (evs : list Event) (st : AppState) :
  (forall rep, rep ∈ reportsHistory st -> titled rep) ->
  forall rep, rep ∈ reportsHistory (run st evs) -> titled rep.
Proof.
  revert st. induction evs as [|ev evs IH]; intros st H; [exact H|].
  change (run st (ev :: evs)) with (run (react st ev) evs). apply IH.
  intros rep. rewrite history_react.
  destruct (completes st ev) as [rep'|] eqn:E; [|apply H].
  intros Hin. apply elem_of_cons in Hin. destruct Hin as [->|Hin]; [|apply H, Hin].
  eapply completes_titled, E.
Qed.

Lemma displayed_react (st : AppState) (ev : Event) :
  (forall r, report st = Some r -> r ∈ reportsHistory st) ->
  forall r, report (react st ev) = Some r -> r ∈ reportsHistory (react st ev).
Proof.
  by_event ev st ltac:(intros H; try exact H).
  - intros r [= <-]. apply list_elem_of_here.
  - intros r Hr. discriminate.
  - intros r [= <-]. eapply list_elem_of_lookup_2, lookup_take_Some. eassumption.
  - intros r [= <-]. eapply list_elem_of_lookup_2. eassumption.
Qed.

Lemma displayed_run (evs : list Event) (st : AppState) :
  (forall r, report st = Some r -> r ∈ reportsHistory st) ->
  forall r, report (run st evs) = Some r -> r ∈ reportsHistory (run st evs).
Proof.
  revert st. induction evs as [|ev evs IH]; intros st H; [exact H|].
  change (run st (ev :: evs)) with (run (react st ev) evs).
  apply IH, displayed_react, H.
Qed.

End Archive.

(** X11. Every report in the history, after any run, has an [id], a [date]
    and a [title] that are strings, and its title is not empty: the sidebar
    and the archive table never show an entry without a title. *)
Theorem archive_entries_titled (evs : list Event) (rep : Obj.t) :
  rep ∈ reportsHistory (run initial evs) -> Trace.titled rep.
Proof.
  apply archive_titled_run. intros r H. apply list_elem_of_singleton in H. subst r.
  exists "mock-1", "Oct 12, 2024", "Strategy Sync - Q4 Growth". repeat split.
Qed.

Lemma archive_entries_titled_witness : Trace.titled MOCK_REPORT.
Proof.
  apply (archive_entries_titled [ContextInput "Budget review"; GenerateClick]).
  apply list_elem_of_here.
Defined.

(** X12. The report on display, if there is one, is always one of the
    reports of the history. *)
Theorem displayed_report_is_archived (evs : list Event) (r : Obj.t) :
  report (run initial evs) = Some r -> r ∈ reportsHistory (run initial evs).
Proof. apply displayed_run. intros r' H. discriminate. Qed.

Lemma displayed_report_is_archived_witness :
  MOCK_REPORT ∈ reportsHistory (run initial [RecentClick 0]).
Proof. exact (displayed_report_is_archived [RecentClick 0] MOCK_REPORT eq_refl). Defined.

(** ** The pipeline indicator *)

Section Pipeline.

Lemma indicator_react (st : AppState) (ev : Event) :
  (currentAnalysisStep st <= 3)%nat -> (currentAnalysisStep (react st ev) <= 3)%nat.
Proof. by_event ev st ltac:(intros H; lia). Qed.

Lemma indicator_run (evs : list Event) (st : AppState) :
  (currentAnalysisStep st <= 3)%nat -> (currentAnalysisStep (run st evs) <= 3)%nat.
Proof.
  revert st. induction evs as [|ev evs IH]; intros st H; [exact H|].
  change (run st (ev :: evs)) with (run (react st ev) evs).
  apply IH, indicator_react, H.
Qed.

(** One firing of a timer whose callback closed over step [c]. *)
Lemma tick_closed_over (c id : nat) (random : Q) (st : AppState) :
  (intervals st !! id = None \/ intervals st !! id = Some c) ->
  (currentAnalysisStep st = 0 \/ currentAnalysisStep st = S c)%nat ->
  let st' := react st (IntervalFired id random) in
  (intervals st' !! id = None \/ intervals st' !! id = Some c) /\
  (currentAnalysisStep st' = 0 \/ currentAnalysisStep st' = S c)%nat.
Proof.
  intros Hi Hs. cbv zeta. unfold react, dispatch, App.bind, get.
  destruct Hi as [Hi|Hi]; rewrite Hi; cbn; [auto|].
  unfold interval_callback, App.bind, get.
  destruct (Qle_bool 100 (analysisProgress st)); cbn.
  - split; [left; apply lookup_delete_eq|exact Hs].
  - destruct c as [|[|[|c]]]; cbn;
      repeat match goal with
        | |- context [negb ?b] => destruct b; cbn
        end; auto.
Qed.

End Pipeline.

(** X13. After any run the step indicator is at most 3, so exactly one of
    the four steps of the analysis pipeline is active, the steps before it
    are complete and the steps after it are neither. *)
Theorem one_active_pipeline_step (evs : list Event) :
  let st := run initial evs in
  let c := currentAnalysisStep st in
  (c <= 3)%nat /\
  View.pipeline st
  = replicate c (true, false) ++ [(false, true)] ++ replicate (3 - c) (false, false).
Proof.
  cbv zeta.
  pose proof (indicator_run evs initial (Nat.le_0_l 3)) as H.
  split; [exact H|]. unfold View.pipeline.
  destruct (currentAnalysisStep (run initial evs)) as [|[|[|[|c]]]]; [reflexivity..|lia].
Qed.

Section Undisturbed.

(** What holds of the timer [id], which closed over step [c], and of the
    indicator while the timer of no other session fires and no session
    completes. *)
Lemma undisturbed_react (c id : nat) (st : AppState) (ev : Event) :
  (intervals st !! id = None \/ intervals st !! id = Some c) ->
  (currentAnalysisStep st = 0 \/ currentAnalysisStep st = S c)%nat ->
  (id < nextTimer st)%nat ->
  Trace.undisturbed id st [ev] = true ->
  (intervals (react st ev) !! id = None \/ intervals (react st ev) !! id = Some c) /\
  (currentAnalysisStep (react st ev) = 0 \/ currentAnalysisStep (react st ev) = S c)%nat /\
  (id < nextTimer (react st ev))%nat.
Proof.
  intros Hi Hs Hlt Hq. pose proof (nextTimer_mono st ev) as Hm.
  cut ((intervals (react st ev) !! id = None \/ intervals (react st ev) !! id = Some c) /\
       (currentAnalysisStep (react st ev) = 0 \/ currentAnalysisStep (react st ev) = S c)%nat).
  { intros [H1 H2]. split; [exact H1|]. split; [exact H2|lia]. }
  clear Hm. cbn [Trace.undisturbed] in Hq. rewrite andb_true_r in Hq.
  destruct ev;
    try (unfold completes in Hq; clear Hq; handler_cases; split; assumption).
  - clear Hq. handler_cases. split; [|left; reflexivity].
    rewrite lookup_insert_ne by lia. exact Hi.
  - unfold completes in Hq. revert Hq. settle_cases st k outcome; intros Hq.
    + discriminate.
    + cbn [intervals currentAnalysisStep]. split; [|exact Hs].
      destruct (decide (closure_interval a = id)) as [->|Hne].
      * left. apply lookup_delete_eq.
      * rewrite lookup_delete_ne by exact Hne. exact Hi.
    + split; assumption.
  - apply Nat.eqb_eq in Hq. subst id0.
    exact (tick_closed_over c id random st Hi Hs).
Qed.

Lemma undisturbed_run (c id : nat) (evs : list Event) (st : AppState) :
  (intervals st !! id = None \/ intervals st !! id = Some c) ->
  (currentAnalysisStep st = 0 \/ currentAnalysisStep st = S c)%nat ->
  (id < nextTimer st)%nat ->
  Trace.undisturbed id st evs = true ->
  (currentAnalysisStep (run st evs) = 0 \/ currentAnalysisStep (run st evs) = S c)%nat.
Proof.
  revert st. induction evs as [|ev evs IH]; intros st Hi Hs Hlt Hq; [exact Hs|].
  change (run st (ev :: evs)) with (run (react st ev) evs).
  cbn [Trace.undisturbed] in Hq. apply andb_true_iff in Hq. destruct Hq as [Hev Hq].
  destruct (undisturbed_react c id st ev Hi Hs Hlt) as (Hi' & Hs' & Hlt').
  { cbn [Trace.undisturbed]. rewrite Hev. reflexivity. }
  exact (IH _ Hi' Hs' Hlt' Hq).
Qed.

End Undisturbed.

(** X14. The interval callback compares its thresholds with the step it
    closed over when the button was clicked, not with the current one.
    After a click, whatever happens next, as long as the timer of no other
    session fires and no session completes, the indicator is either at the
    first step or one step after the one shown at the click; so with the
    indicator at the first step at the click it does not pass the second
    step. *)
Theorem ticks_advance_one_step (st : AppState) (evs : list Event) :
  Trace.undisturbed (nextTimer st) (react st GenerateClick) evs = true ->
  let c := currentAnalysisStep st in
  let st' := run (react st GenerateClick) evs in
  (currentAnalysisStep st' = 0 \/ currentAnalysisStep st' = S c)%nat.
Proof.
  intros Hq. cbv zeta. apply (undisturbed_run _ (nextTimer st)).
  - right. cbn. apply lookup_insert_eq.
  - left. reflexivity.
  - cbn. lia.
  - exact Hq.
Qed.

Lemma ticks_advance_one_step_witness :
  let evs := [ IntervalFired 1 1; NavReportsClick; IntervalFired 1 1; NavGenerateClick;
               GenerateClick; IntervalFired 1 1;
               RequestSettled 1 (Gemini.Rejected (ServiceError "quota exceeded"))
                 "0.4fzyo82mvyr" "Nov 3, 2026" ] in
  let st' := run (react initial GenerateClick) evs in
  (currentAnalysisStep st' = 0 \/ currentAnalysisStep st' = 1)%nat.
Proof.
  exact (ticks_advance_one_step initial
           [ IntervalFired 1 1; NavReportsClick; IntervalFired 1 1; NavGenerateClick;
             GenerateClick; IntervalFired 1 1;
             RequestSettled 1 (Gemini.Rejected (ServiceError "quota exceeded"))
               "0.4fzyo82mvyr" "Nov 3, 2026" ]
           eq_refl).
Defined.

(** Ten firings that each add fifteen points: the indicator stops at 1. *)
Example ticks_sample :
  currentAnalysisStep
    (run (react initial GenerateClick) (map (IntervalFired 1) (replicate 10 1%Q)))
  = 1%nat.
Proof. vm_compute. reflexivity. Qed.

(** ** Which block is shown *)

Section Blocks.

Import Trace.




End Blocks.



(** Without that restriction two blocks can be shown at once. *)
Example two_blocks_sample :
  View.panels (run initial [NavReportsClick; GenerateClick])
  = [View.ReportsList; View.AnalyzingView].
Proof. reflexivity. Qed.

(** ** Evaluating the report detail *)

Section Reads.

Import Trace.

Lemma read_readable (v : View.value) (k : string) :
  readable v = true -> View.read v k = inr (field v k).
Proof. destruct v as [[]|]; try discriminate; reflexivity. Qed.

Lemma read_unreadable (v : View.value) (k : string) :
  readable v = false -> View.read v k = inl (View.CannotRead k).
Proof. destruct v as [[]|]; try discriminate; reflexivity. Qed.

Lemma read_inr (v x : View.value) (k : string) :
  View.read v k = inr x -> readable v = true /\ x = field v k.
Proof.
  destruct (readable v) eqn:E.
  - rewrite (read_readable v k E). intros [= <-]. split; reflexivity.
  - rewrite (read_unreadable v k E). discriminate.
Qed.

Lemma bind_inr {A B : Type} (m : View.TypeError + A) (f : A -> View.TypeError + B) (b : B) :
  View.bind m f = inr b -> exists a, m = inr a /\ f a = inr b.
Proof. destruct m as [e|a]; [discriminate|]. intros H. exists a. split; [reflexivity|exact H]. Qed.

Variable A : Type.
Variable f : nat -> json -> View.TypeError + A.

(** The callbacks of the five lists read properties of their item and do
    nothing else that can fail. *)
Hypothesis f_reads :
  forall i item, (exists row, f i item = inr row) <-> readable (Some item) = true.

Lemma each_listable (items : list json) (i : nat) :
  forallb (fun item => readable (Some item)) items = true ->
  exists rows, View.each f i items = inr rows /\ length rows = length items.
Proof.
  revert i. induction items as [|item items IH]; intros i H.
  - exists []. split; reflexivity.
  - cbn [forallb] in H. apply andb_true_iff in H. destruct H as [Hitem Hrest].
    destruct (proj2 (f_reads i item) Hitem) as [row Hrow].
    destruct (IH (S i) Hrest) as (rows & Hrows & Hlen).
    exists (row :: rows). cbn [View.each]. rewrite Hrow. cbn [View.bind].
    rewrite Hrows. cbn. split; [reflexivity|]. rewrite Hlen. reflexivity.
Qed.

Lemma each_inr (items : list json) (i : nat) (rows : list A) :
  View.each f i items = inr rows ->
  forallb (fun item => readable (Some item)) items = true.
Proof.
  revert i rows. induction items as [|item items IH]; intros i rows H; [reflexivity|].
  cbn [View.each] in H. apply bind_inr in H. destruct H as (row & Hrow & H).
  apply bind_inr in H. destruct H as (rows' & Hrows & _).
  cbn [forallb]. apply andb_true_iff. split.
  - apply (f_reads i item). exists row. exact Hrow.
  - exact (IH _ _ Hrows).
Qed.

Lemma map_listable (v : View.value) :
  listable v = true -> exists rows, View.map_ v f = inr rows.
Proof.
  destruct v as [[]|]; try discriminate. cbn. intros H.
  destruct (each_listable items 0 H) as (rows & Hrows & _). exists rows. exact Hrows.
Qed.

Lemma map_inr (v : View.value) (rows : list A) :
  View.map_ v f = inr rows -> listable v = true.
Proof.
  destruct v as [[]|]; try discriminate. cbn. apply each_inr.
Qed.

Lemma map_unlistable (v : View.value) :
  listable v = false -> exists e, View.map_ v f = inl e.
Proof.
  intros H. destruct (View.map_ v f) as [e|rows] eqn:E; [exists e; reflexivity|].
  apply map_inr in E. congruence.
Qed.

End Reads.

Section Rows.

Import Trace.

Ltac row_reads :=
  intros i item; split;
  [ intros [row H]; destruct item; try reflexivity; discriminate
  | intros H; destruct item; try discriminate; eexists; reflexivity ].

Lemma stakeholderRow_reads i item :
  (exists row, View.stakeholderRow i item = inr row) <-> readable (Some item) = true.
Proof. revert i item. row_reads. Qed.

Lemma riskCard_reads i item :
  (exists row, View.riskCard i item = inr row) <-> readable (Some item) = true.
Proof. revert i item. row_reads. Qed.

Lemma talkingPoint_reads i item :
  (exists row, View.talkingPoint i item = inr row) <-> readable (Some item) = true.
Proof. revert i item. row_reads. Qed.

Lemma objection_reads i item :
  (exists row, View.objection i item = inr row) <-> readable (Some item) = true.
Proof. revert i item. row_reads. Qed.

Lemma nextStep_reads i item :
  (exists row, View.nextStep i item = inr row) <-> readable (Some item) = true.
Proof. revert i item. row_reads. Qed.

End Rows.

Section Detail.

Import Trace.

Lemma renderable_renders (rep : Obj.t) :
  renderable rep = true -> exists v, View.reportDetail rep = inr v.
Proof.
  unfold renderable. rewrite !andb_true_iff.
  intros ((((((((H1 & H2) & H3) & H4) & H5) & H6) & H7) & H8) & H9).
  destruct (map_listable _ _ stakeholderRow_reads _ H3) as [rows1 E1].
  destruct (map_listable _ _ riskCard_reads _ H5) as [rows2 E2].
  destruct (map_listable _ _ talkingPoint_reads _ H7) as [rows3 E3].
  destruct (map_listable _ _ objection_reads _ H8) as [rows4 E4].
  destruct (map_listable _ _ nextStep_reads _ H9) as [rows5 E5].
  unfold View.reportDetail. cbn [View.read View.bind].
  rewrite !(read_readable _ _ H1). cbn [View.bind].
  rewrite !(read_readable _ _ H2). cbn [View.bind]. rewrite E1. cbn [View.bind].
  rewrite !(read_readable _ _ H4). cbn [View.bind]. rewrite E2. cbn [View.bind].
  rewrite !(read_readable _ _ H6). cbn [View.bind]. rewrite E3. cbn [View.bind].
  rewrite E4. cbn [View.bind]. rewrite E5. cbn [View.bind].
  eexists. reflexivity.
Qed.

Ltac invert_binds H :=
  repeat (apply bind_inr in H; destruct H as (? & ? & H));
  repeat match goal with
    | R : View.read _ _ = inr _ |- _ => apply read_inr in R; destruct R as [? ->]
    end;
  repeat match goal with
    | R : View.map_ _ View.stakeholderRow = inr _ |- _ =>
        apply (map_inr _ _ stakeholderRow_reads) in R
    | R : View.map_ _ View.riskCard = inr _ |- _ =>
        apply (map_inr _ _ riskCard_reads) in R
    | R : View.map_ _ View.talkingPoint = inr _ |- _ =>
        apply (map_inr _ _ talkingPoint_reads) in R
    | R : View.map_ _ View.objection = inr _ |- _ =>
        apply (map_inr _ _ objection_reads) in R
    | R : View.map_ _ View.nextStep = inr _ |- _ =>
        apply (map_inr _ _ nextStep_reads) in R
    end.

Lemma renders_renderable (rep : Obj.t) (v : View.ReportView) :
  View.reportDetail rep = inr v -> renderable rep = true.
Proof.
  intros H. unfold View.reportDetail in H. cbn [View.read View.bind] in H.
  invert_binds H.
  unfold renderable. repeat (apply andb_true_iff; split); assumption.
Qed.

Lemma each_length {A : Type} (f : nat -> json -> View.TypeError + A)
    (items : list json) (i : nat) (rows : list A) :
  View.each f i items = inr rows -> length rows = length items.
Proof.
  revert i rows. induction items as [|item items IH]; intros i rows H.
  - injection H as <-. reflexivity.
  - cbn [View.each] in H. apply bind_inr in H. destruct H as (row & _ & H).
    apply bind_inr in H. destruct H as (rows' & Hrows & H). injection H as <-.
    cbn. rewrite (IH _ _ Hrows). reflexivity.
Qed.

End Detail.

(** X16. Evaluating the report detail succeeds exactly for the reports
    whose [summary], [strategicIntelligence], [riskIdentification] and
    [talkingPoints] are neither [undefined] nor [null] and whose
    [stakeholders], [risks], [points], [objections] and [nextSteps] are
    arrays without [null] items; for every other report it throws a
    [TypeError]. *)
Theorem reportDetail_renderable (rep : Obj.t) :
  (exists v, View.reportDetail rep = inr v) <-> Trace.renderable rep = true.
Proof.
  split.
  - intros [v H]. exact (renders_renderable rep v H).
  - apply renderable_renders.
Qed.

(** Membership in a list that is written out. *)
Ltac here := cbn; repeat first [apply list_elem_of_here | apply list_elem_of_further].

Section Typed.

Import Trace.

Lemma hasType_fields (fs : list (string * View.TsType)) (o : Obj.t) :
  View.hasType (View.TObject fs) (JObject o) = true ->
  forall k tk, (k, tk) ∈ fs ->
    exists vk, Obj.get k o = Some vk /\ View.hasType tk vk = true.
Proof.
  induction fs as [|[k0 t0] fs IH]; intros H k tk Hin.
  - apply elem_of_nil in Hin. contradiction.
  - assert (H' : match Obj.get k0 o with
                 | Some vk => View.hasType t0 vk
                 | None => false
                 end && View.hasType (View.TObject fs) (JObject o) = true) by exact H.
    apply andb_true_iff in H'. destruct H' as [H0 Hrest].
    apply elem_of_cons in Hin. destruct Hin as [[= -> ->]|Hin].
    + destruct (Obj.get k0 o) as [vk|]; [|discriminate]. exists vk. split; [reflexivity|exact H0].
    + exact (IH Hrest k tk Hin).
Qed.

Lemma hasType_object (fs : list (string * View.TsType)) (v : json) :
  View.hasType (View.TObject fs) v = true -> exists o, v = JObject o.
Proof. destruct v; try discriminate. eauto. Qed.

Lemma hasType_readable (fs : list (string * View.TsType)) (v : json) :
  View.hasType (View.TObject fs) v = true -> readable (Some v) = true.
Proof. destruct v; try discriminate. reflexivity. Qed.

Lemma hasType_listable (fs : list (string * View.TsType)) (v : json) :
  View.hasType (View.TArray (View.TObject fs)) v = true -> listable (Some v) = true.
Proof.
  destruct v; try discriminate. cbn.
  induction items as [|item items IH]; [reflexivity|].
  cbn. intros H. apply andb_true_iff in H. destruct H as [Hitem Hrest].
  apply andb_true_iff. split; [|exact (IH Hrest)].
  destruct item; try discriminate; reflexivity.
Qed.

(** A section of the report that has its type, and a list inside it. *)
Lemma typed_section (rep : Obj.t) (sec lst : string)
    (fs rowfs : list (string * View.TsType)) :
  View.hasType View.ReportData (JObject rep) = true ->
  (sec, View.TObject fs) ∈
    match View.ReportData with View.TObject top => top | _ => [] end ->
  (lst, View.TArray (View.TObject rowfs)) ∈ fs ->
  readable (Obj.get sec rep) = true /\
  listable (field (Obj.get sec rep) lst) = true.
Proof.
  intros H Hsec Hlist.
  destruct (hasType_fields _ _ H _ _ Hsec) as (vs & Hvs & Hts).
  rewrite Hvs. split; [exact (hasType_readable _ _ Hts)|].
  destruct (hasType_object _ _ Hts) as [o ->].
  destruct (hasType_fields _ _ Hts _ _ Hlist) as (vl & Hvl & Htl).
  cbn. rewrite Hvl. exact (hasType_listable _ _ Htl).
Qed.

Lemma typed_list (rep : Obj.t) (lst : string) (rowfs : list (string * View.TsType)) :
  View.hasType View.ReportData (JObject rep) = true ->
  (lst, View.TArray (View.TObject rowfs)) ∈
    match View.ReportData with View.TObject top => top | _ => [] end ->
  listable (Obj.get lst rep) = true.
Proof.
  intros H Hlist.
  destruct (hasType_fields _ _ H _ _ Hlist) as (vl & Hvl & Htl).
  rewrite Hvl. exact (hasType_listable _ _ Htl).
Qed.

Lemma typed_renderable (rep : Obj.t) :
  View.hasType View.ReportData (JObject rep) = true -> renderable rep = true.
Proof.
  intros H. unfold renderable.
  destruct (hasType_fields _ _ H "summary" _ ltac:(here)) as (vs & Hvs & Hts).
  destruct (typed_section rep "strategicIntelligence" "stakeholders" _ _ H
              ltac:(here) ltac:(here)) as [H2 H3].
  destruct (typed_section rep "riskIdentification" "risks" _ _ H
              ltac:(here) ltac:(here)) as [H4 H5].
  destruct (typed_section rep "talkingPoints" "points" _ _ H
              ltac:(here) ltac:(here)) as [H6 H7].
  pose proof (typed_list rep "objections" _ H ltac:(here)) as H8.
  pose proof (typed_list rep "nextSteps" _ H ltac:(here)) as H9.
  rewrite H2, H3, H4, H5, H6, H7, H8, H9, Hvs, (hasType_readable _ _ Hts).
  reflexivity.
Qed.

End Typed.

(** X17. A report that has the type [ReportData] can always be displayed:
    evaluating the report detail for it throws nothing. *)
Theorem typed_report_renders (rep : Obj.t) :
  View.hasType View.ReportData (JObject rep) = true ->
  exists v, View.reportDetail rep = inr v.
Proof. intros H. apply renderable_renders, typed_renderable, H. Qed.

Lemma typed_report_renders_witness :
  exists v, View.reportDetail MOCK_REPORT = inr v.
Proof. apply (typed_report_renders MOCK_REPORT). vm_compute. reflexivity. Defined.

(** X18. A response that has no [summary] (an empty object, [null], a
    number, a string, an array, or an object without that key) still makes
    the session succeed, but the report it stores cannot be displayed:
    evaluating the report detail throws on reading [overview] of
    [undefined]. *)
Theorem missing_summary_throws (result : json) (random36 today : string)
    (fs : list UploadedFile) :
  Trace.readable (Obj.get "summary" (spread result)) = false ->
  View.reportDetail (finalReport result random36 today fs)
  = inl (View.CannotRead "overview").
Proof.
  intros H.
  destruct (finalReport_fields result random36 today fs) as (_ & _ & _ & Hk).
  cbv zeta in Hk. specialize (Hk "summary" eq_refl). rewrite <- Hk in H.
  revert H. generalize (finalReport result random36 today fs). intros rep H.
  unfold View.reportDetail. cbn [View.read View.bind].
  rewrite (read_unreadable _ _ H). reflexivity.
Qed.

Lemma missing_summary_throws_witness :
  View.reportDetail (finalReport (JObject []) "0.4fzyo82mvyr" "Nov 3, 2026" [])
  = inl (View.CannotRead "overview").
Proof.
  exact (missing_summary_throws (JObject []) "0.4fzyo82mvyr" "Nov 3, 2026" [] eq_refl).
Defined.

Section Schema.

Import Trace.

Lemma conforms_split (props : list (string * Gemini.Schema)) (req : list string)
    (o : Obj.t) :
  conforms (Gemini.OBJECT props req) (JObject o) = true ->
  forallb (fun k => match Obj.get k o with Some _ => true | None => false end) req = true
  /\ conforms (Gemini.OBJECT props []) (JObject o) = true.
Proof.
  intros H.
  assert (H' : forallb (fun k => match Obj.get k o with Some _ => true | None => false end) req
               && conforms (Gemini.OBJECT props []) (JObject o) = true) by exact H.
  apply andb_true_iff in H'. exact H'.
Qed.

Lemma conforms_required (props : list (string * Gemini.Schema)) (req : list string)
    (o : Obj.t) (k : string) :
  conforms (Gemini.OBJECT props req) (JObject o) = true ->
  k ∈ req -> exists vk, Obj.get k o = Some vk.
Proof.
  intros H Hin. apply conforms_split in H. destruct H as [H _].
  rewrite forallb_forall in H. apply list_elem_of_In in Hin. specialize (H k Hin).
  destruct (Obj.get k o) as [vk|]; [eauto|discriminate].
Qed.

Lemma conforms_declared_only (props : list (string * Gemini.Schema)) (o : Obj.t) :
  conforms (Gemini.OBJECT props []) (JObject o) = true ->
  forall k sk vk, (k, sk) ∈ props -> Obj.get k o = Some vk -> conforms sk vk = true.
Proof.
  induction props as [|[k0 s0] props IH]; intros H k sk vk Hin Hget.
  - apply elem_of_nil in Hin. contradiction.
  - assert (H' : match Obj.get k0 o with
                 | Some v0 => conforms s0 v0
                 | None => true
                 end && conforms (Gemini.OBJECT props []) (JObject o) = true) by exact H.
    apply andb_true_iff in H'. destruct H' as [H0 Hrest].
    apply elem_of_cons in Hin. destruct Hin as [[= -> ->]|Hin].
    + rewrite Hget in H0. exact H0.
    + exact (IH Hrest k sk vk Hin Hget).
Qed.

Lemma conforms_declared (props : list (string * Gemini.Schema)) (req : list string)
    (o : Obj.t) (k : string) (sk : Gemini.Schema) (vk : json) :
  conforms (Gemini.OBJECT props req) (JObject o) = true ->
  (k, sk) ∈ props -> Obj.get k o = Some vk -> conforms sk vk = true.
Proof.
  intros H. apply conforms_split in H. destruct H as [_ H].
  apply (conforms_declared_only props o H).
Qed.

Lemma conforms_readable (props : list (string * Gemini.Schema)) (req : list string)
    (v : json) :
  conforms (Gemini.OBJECT props req) v = true -> readable (Some v) = true.
Proof. destruct v; try discriminate. reflexivity. Qed.

Lemma conforms_listable (props : list (string * Gemini.Schema)) (req : list string)
    (v : json) :
  conforms (Gemini.ARRAY (Gemini.OBJECT props req)) v = true -> listable (Some v) = true.
Proof.
  destruct v; try discriminate. cbn.
  induction items as [|item items IH]; [reflexivity|].
  cbn. intros H. apply andb_true_iff in H. destruct H as [Hitem Hrest].
  apply andb_true_iff. split; [|exact (IH Hrest)].
  destruct item; try discriminate; reflexivity.
Qed.

(** What the schema ensures of a section with an optional list. *)
Lemma schema_section (o : Obj.t) (sec lst : string)
    (props rowprops : list (string * Gemini.Schema)) (rowreq : list string) :
  conforms Gemini.reportSchema (JObject o) = true ->
  sec ∈ match Gemini.reportSchema with Gemini.OBJECT _ req => req | _ => [] end ->
  (sec, Gemini.OBJECT props []) ∈
    match Gemini.reportSchema with Gemini.OBJECT top _ => top | _ => [] end ->
  (lst, Gemini.ARRAY (Gemini.OBJECT rowprops rowreq)) ∈ props ->
  readable (Obj.get sec o) = true /\
  (field (Obj.get sec o) lst = None \/ listable (field (Obj.get sec o) lst) = true).
Proof.
  intros H Hreq Hsec Hlst.
  destruct (conforms_required _ _ _ _ H Hreq) as [vs Hvs].
  pose proof (conforms_declared _ _ _ _ _ _ H Hsec Hvs) as Hcs.
  rewrite Hvs. split; [exact (conforms_readable _ _ _ Hcs)|].
  destruct vs; try discriminate. cbn.
  destruct (Obj.get lst props0) as [vl|] eqn:E; [right|left; reflexivity].
  exact (conforms_listable _ _ _ (conforms_declared _ _ _ _ _ _ Hcs Hlst E)).
Qed.

Lemma schema_list (o : Obj.t) (lst : string)
    (rowprops : list (string * Gemini.Schema)) (rowreq : list string) :
  conforms Gemini.reportSchema (JObject o) = true ->
  lst ∈ match Gemini.reportSchema with Gemini.OBJECT _ req => req | _ => [] end ->
  (lst, Gemini.ARRAY (Gemini.OBJECT rowprops rowreq)) ∈
    match Gemini.reportSchema with Gemini.OBJECT top _ => top | _ => [] end ->
  listable (Obj.get lst o) = true.
Proof.
  intros H Hreq Hlst.
  destruct (conforms_required _ _ _ _ H Hreq) as [vl Hvl].
  rewrite Hvl. exact (conforms_listable _ _ _ (conforms_declared _ _ _ _ _ _ H Hlst Hvl)).
Qed.

(** The report detail of a report whose sections are there and whose
    required lists are arrays, by cases on its three optional lists. *)
Lemma detail_cases (rep : Obj.t) :
  readable (Obj.get "summary" rep) = true ->
  readable (Obj.get "strategicIntelligence" rep) = true ->
  readable (Obj.get "riskIdentification" rep) = true ->
  readable (Obj.get "talkingPoints" rep) = true ->
  listable (Obj.get "objections" rep) = true ->
  listable (Obj.get "nextSteps" rep) = true ->
  (field (Obj.get "strategicIntelligence" rep) "stakeholders" = None \/
   listable (field (Obj.get "strategicIntelligence" rep) "stakeholders") = true) ->
  (field (Obj.get "riskIdentification" rep) "risks" = None \/
   listable (field (Obj.get "riskIdentification" rep) "risks") = true) ->
  (field (Obj.get "talkingPoints" rep) "points" = None \/
   listable (field (Obj.get "talkingPoints" rep) "points") = true) ->
  (renderable rep = true /\ exists v, View.reportDetail rep = inr v) \/
  (renderable rep = false /\ View.reportDetail rep = inl (View.CannotRead "map")).
Proof.
  intros R1 R2 R4 R6 L8 L9 [N3|L3].
  { intros _ _. right. split.
    - unfold renderable. rewrite N3. cbn. rewrite !andb_false_r. reflexivity.
    - unfold View.reportDetail. cbn [View.read View.bind].
      rewrite !(read_readable _ _ R1). cbn [View.bind].
      rewrite !(read_readable _ _ R2). cbn [View.bind]. rewrite N3. reflexivity. }
  destruct (map_listable _ _ stakeholderRow_reads _ L3) as [rows1 E1].
  intros [N5|L5].
  { intros _. right. split.
    - unfold renderable. rewrite N5. cbn. rewrite !andb_false_r. reflexivity.
    - unfold View.reportDetail. cbn [View.read View.bind].
      rewrite !(read_readable _ _ R1). cbn [View.bind].
      rewrite !(read_readable _ _ R2). cbn [View.bind]. rewrite E1. cbn [View.bind].
      rewrite !(read_readable _ _ R4). cbn [View.bind]. rewrite N5. reflexivity. }
  destruct (map_listable _ _ riskCard_reads _ L5) as [rows2 E2].
  intros [N7|L7].
  { right. split.
    - unfold renderable. rewrite N7. cbn. rewrite !andb_false_r. reflexivity.
    - unfold View.reportDetail. cbn [View.read View.bind].
      rewrite !(read_readable _ _ R1). cbn [View.bind].
      rewrite !(read_readable _ _ R2). cbn [View.bind]. rewrite E1. cbn [View.bind].
      rewrite !(read_readable _ _ R4). cbn [View.bind]. rewrite E2. cbn [View.bind].
      rewrite !(read_readable _ _ R6). cbn [View.bind]. rewrite N7. reflexivity. }
  left.
  assert (Hr : renderable rep = true).
  { unfold renderable. rewrite R1, R2, L3, R4, L5, R6, L7, L8, L9. reflexivity. }
  split; [exact Hr|]. apply renderable_renders, Hr.
Qed.

End Schema.

(** X19. The response schema requires the twelve fields of a report and the
    four fields of its summary, but not the lists inside
    [strategicIntelligence], [riskIdentification] and [talkingPoints].  So
    the report stored for a response that conforms to the schema can be
    displayed when its [stakeholders], [risks] and [points] are there, and
    otherwise evaluating the report detail throws on reading [map] of
    [undefined]; nothing else can go wrong. *)
Theorem schema_leaves_lists_optional (o : Obj.t) (random36 today : string)
    (fs : list UploadedFile) :
  conforms Gemini.reportSchema (JObject o) = true ->
  let rep := finalReport (JObject o) random36 today fs in
  (Trace.renderable rep = true /\ exists v, View.reportDetail rep = inr v) \/
  (Trace.renderable rep = false /\
   View.reportDetail rep = inl (View.CannotRead "map")).
Proof.
  intros H.
  destruct (finalReport_fields (JObject o) random36 today fs) as (_ & _ & _ & Hk).
  cbv zeta in *. cbn [spread] in Hk.
  revert Hk. generalize (finalReport (JObject o) random36 today fs). intros rep Hk.
  destruct (conforms_required _ _ _ "summary" H ltac:(here)) as [vs Hvs].
  pose proof (conforms_declared _ _ _ "summary" _ _ H ltac:(here) Hvs) as Hcs.
  destruct (schema_section o "strategicIntelligence" "stakeholders" _ _ _ H
              ltac:(here) ltac:(here) ltac:(here)) as [R2 L3].
  destruct (schema_section o "riskIdentification" "risks" _ _ _ H
              ltac:(here) ltac:(here) ltac:(here)) as [R4 L5].
  destruct (schema_section o "talkingPoints" "points" _ _ _ H
              ltac:(here) ltac:(here) ltac:(here)) as [R6 L7].
  pose proof (schema_list o "objections" _ _ H ltac:(here) ltac:(here)) as L8.
  pose proof (schema_list o "nextSteps" _ _ H ltac:(here) ltac:(here)) as L9.
  apply detail_cases;
    rewrite ?(Hk "summary" eq_refl), ?(Hk "strategicIntelligence" eq_refl),
      ?(Hk "riskIdentification" eq_refl), ?(Hk "talkingPoints" eq_refl),
      ?(Hk "objections" eq_refl), ?(Hk "nextSteps" eq_refl);
    try assumption.
  rewrite Hvs. exact (conforms_readable _ _ _ Hcs).
Qed.

Lemma schema_leaves_lists_optional_witness :
  let rep := finalReport (JObject sampleFields) "0.4fzyo82mvyr" "Nov 3, 2026" [] in
  (Trace.renderable rep = true /\ exists v, View.reportDetail rep = inr v) \/
  (Trace.renderable rep = false /\
   View.reportDetail rep = inl (View.CannotRead "map")).
Proof.
  apply (schema_leaves_lists_optional sampleFields "0.4fzyo82mvyr" "Nov 3, 2026" []).
  vm_compute. reflexivity.
Defined.

(** A response with an empty [strategicIntelligence] conforms to the schema,
    and the report made from it cannot be displayed. *)
Example sparse_response_sample :
  conforms Gemini.reportSchema (JObject sparseFields) = true /\
  View.reportDetail (finalReport (JObject sparseFields) "0.4fzyo82mvyr" "Nov 3, 2026" [])
  = inl (View.CannotRead "map").
Proof. vm_compute. split; reflexivity. Qed.

(** X20. What the report detail displays is read from the report without
    any change: the scalar fields are those of the report and of its
    sections, and each list has one row per item. *)
Theorem detail_shows_fields (rep : Obj.t) (v : View.ReportView) :
  View.reportDetail rep = inr v ->
  let summary := Obj.get "summary" rep in
  let intelligence := Obj.get "strategicIntelligence" rep in
  let risk := Obj.get "riskIdentification" rep in
  let talking := Obj.get "talkingPoints" rep in
  (View.confidence v = Obj.get "confidence" rep /\
   View.focusArea v = Obj.get "focusArea" rep /\
   View.executiveBrief v = Obj.get "executiveBrief" rep /\
   View.coverImagePrompt v = Obj.get "coverImagePrompt" rep) /\
  (View.overview v = Trace.field summary "overview" /\
   View.objective v = Trace.field summary "objective" /\
   View.strategicImportance v = Trace.field summary "strategicImportance" /\
   View.criticalDecision v = Trace.field summary "criticalDecision") /\
  (View.powerDynamics v = Trace.field intelligence "powerDynamics" /\
   View.incentiveAnalysis v = Trace.field intelligence "incentiveAnalysis" /\
   View.hiddenObjection v = Trace.field risk "hiddenObjection" /\
   View.framingStrategy v = Trace.field talking "framingStrategy") /\
  (forall items, Trace.field intelligence "stakeholders" = Some (JArray items) ->
     length (View.stakeholders v) = length items) /\
  (forall items, Trace.field risk "risks" = Some (JArray items) ->
     length (View.risks v) = length items) /\
  (forall items, Trace.field talking "points" = Some (JArray items) ->
     length (View.points v) = length items) /\
  (forall items, Obj.get "objections" rep = Some (JArray items) ->
     length (View.objections v) = length items) /\
  (forall items, Obj.get "nextSteps" rep = Some (JArray items) ->
     length (View.nextSteps v) = length items).
Proof.
  intros H. cbv zeta. unfold View.reportDetail in H. cbn [View.read View.bind] in H.
  repeat (apply bind_inr in H; destruct H as (? & ? & H)).
  repeat match goal with
    | R : View.read _ _ = inr _ |- _ => apply read_inr in R; destruct R as [? ->]
    end.
  injection H as <-. cbn.
  repeat split;
    intros items Hitems;
    match goal with
    | R : View.map_ ?l _ = inr ?rows |- length ?rows = _ =>
        rewrite Hitems in R; cbn in R; exact (each_length _ _ _ _ R)
    end.
Qed.

Lemma detail_shows_fields_witness :
  exists v, View.reportDetail MOCK_REPORT = inr v /\
    View.executiveBrief v = Obj.get "executiveBrief" MOCK_REPORT /\
    length (View.stakeholders v) = 3%nat.
Proof.
  eexists. split; [vm_compute; reflexivity|].
  destruct (detail_shows_fields MOCK_REPORT _ eq_refl)
    as ((_ & _ & Hb & _) & _ & _ & Hs & _).
  split; [exact Hb|]. exact (Hs _ eq_refl).
Defined.

(** ** The sidebar and the upload boxes *)

(** X21. The sidebar lists the five most recently completed reports, newest
    first; the seed entry follows them only while fewer than five sessions
    have completed. *)
Theorem sidebar_shows_latest (evs : list Event) :
  let done := completed initial evs in
  View.recent (run initial evs)
  = take 5 (rev done) ++ take (5 - length done) [MOCK_REPORT] /\
  length (View.recent (run initial evs)) = min 5 (S (length done)).
Proof.
  cbv zeta. unfold View.recent.
  pose proof (history_run evs initial) as H. cbn [reportsHistory initial] in H.
  rewrite H. split.
  - rewrite take_app, length_rev. reflexivity.
  - rewrite length_take, List.length_app, length_rev. cbn [length]. lia.
Qed.



Section Boxes.

Lemma find_last {A : Type} (p : A -> bool) (l : list A) (x : A) :
  (forall y, y ∈ l -> p y = false) ->
  List.find p (l ++ [x]) = if p x then Some x else None.
Proof.
  induction l as [|y l IH]; intros H; [reflexivity|].
  cbn. rewrite (H y (list_elem_of_here y l)). apply IH.
  intros z Hz. apply H, list_elem_of_further, Hz.
Qed.

Lemma two_reads (st : AppState) (f1 f2 : Browser.File) (k1 k2 : string) :
  run st [ FileInputChange [f1] k1; FileInputChange [f2] k2 ]
  = with_readers ((readers st ++ [f1]) ++ [f2]) st.
Proof. destruct st; reflexivity. Qed.

End Boxes.

(** X23. Which box a file was chosen through plays no part in where its
    name appears.  A file whose type mentions [pdf], and neither
    [presentation] nor a name ending in [.pptx], appears under the notes box
    once it has loaded, and the slides box keeps its placeholder, when no
    earlier file matches either box. *)
Theorem pdf_appears_under_notes (st : AppState) (file : Browser.File) (kind : string) :
  (forall f, f ∈ files st ->
     View.includes "pdf" (type f) || View.includes "word" (type f) = false) ->
  (forall f, f ∈ files st ->
     View.includes "presentation" (type f) || View.endsWith ".pptx" (name f) = false) ->
  View.includes "pdf" (Browser.file_type file) = true ->
  View.includes "presentation" (Browser.file_type file) = false ->
  View.endsWith ".pptx" (Browser.file_name file) = false ->
  Js.truthy (Browser.file_name file) = true ->
  let st' := run st [ FileInputChange [file] kind; ReaderLoaded (length (readers st)) ] in
  View.notesLabel (files st') = Browser.file_name file /\
  View.slidesLabel (files st') = View.placeholder.
Proof.
  intros Hn Hs Hpdf Hpres Hpptx Hname. cbv zeta.
  assert (Hfiles : files (run st [ FileInputChange [file] kind;
                                   ReaderLoaded (length (readers st)) ])
                   = files st ++ [Trace.entryOf file]).
  { unfold run. cbn [fold_left].
    assert (H1 : react st (FileInputChange [file] kind)
                 = with_readers (readers st ++ [file]) st) by reflexivity.
    rewrite H1. rewrite (reader_loaded_appends _ _ file).
    - reflexivity.
    - cbn. apply list_lookup_middle. reflexivity. }
  rewrite Hfiles. unfold View.notesLabel, View.slidesLabel.
  rewrite (find_last _ _ _ Hn), (find_last _ _ _ Hs). cbn [Trace.entryOf type name].
  rewrite Hpdf, Hpres, Hpptx. cbn. rewrite Hname. split; reflexivity.
Qed.

Lemma pdf_appears_under_notes_witness :
  let st' := run initial [ FileInputChange [versionedDeck] "slides"; ReaderLoaded 0 ] in
  View.notesLabel (files st') = "Q4.v2.pdf" /\
  View.slidesLabel (files st') = View.placeholder.
Proof.
  apply (pdf_appears_under_notes initial versionedDeck "slides");
    try reflexivity; intros f Hf; apply elem_of_nil in Hf; contradiction.
Defined.

(** X24. The files are collected in the order in which their reads finish,
    not in the order in which they were chosen: when the file chosen second
    loads first, its entry comes first, and so does its attachment in the
    next request. *)
Theorem files_in_load_order (st : AppState) (f1 f2 : Browser.File) (k1 k2 : string) :
  let n := length (readers st) in
  let st' := run st [ FileInputChange [f1] k1; FileInputChange [f2] k2;
                      ReaderLoaded (S n); ReaderLoaded n ] in
  files st' = files st ++ [Trace.entryOf f2; Trace.entryOf f1] /\
  readers st' = readers st /\
  outbox (react st' GenerateClick)
  = outbox st ++
    [ Gemini.request
        (Gemini.generateMeetingIntelligence (notes st) EmptyString (context st)
           (map toPayload (files st ++ [Trace.entryOf f2; Trace.entryOf f1]))) ].
Proof.
  cbv zeta.
  change [ FileInputChange [f1] k1; FileInputChange [f2] k2;
           ReaderLoaded (S (length (readers st))); ReaderLoaded (length (readers st)) ]
    with ([ FileInputChange [f1] k1; FileInputChange [f2] k2 ]
          ++ [ ReaderLoaded (S (length (readers st))); ReaderLoaded (length (readers st)) ]).
  rewrite run_app, two_reads. unfold run. cbn [fold_left].
  assert (Hlen : S (length (readers st)) = length (readers st ++ [f1]))
    by (rewrite List.length_app; cbn; lia).
  rewrite (reader_loaded_appends
             (with_readers ((readers st ++ [f1]) ++ [f2]) st)
             (S (length (readers st))) f2)
    by (cbn; rewrite Hlen; apply list_lookup_middle; reflexivity).
  cbn [readers files with_readers with_files]. rewrite Hlen, remove_last.
  rewrite (reader_loaded_appends _ (length (readers st)) f1)
    by (cbn; apply list_lookup_middle; reflexivity).
  cbn [readers files with_readers with_files]. rewrite remove_last.
  rewrite <- app_assoc. cbn. repeat split.
Qed.

(** ** Titles *)

(** X25. When the first collected file has a name made of a stem without
    dots, not empty, a dot and an extension without dots, the title of the
    stored report is the stem, whatever the response and the other files. *)
Theorem title_is_stem (stem ext mime payload : string) (more : list UploadedFile)
    (result : json) (random36 today : string) :
  Js.lacks "."%char stem = true ->
  Js.lacks "."%char ext = true ->
  Js.truthy stem = true ->
  Obj.get "title"
    (finalReport result random36 today
       ({| name := stem +:+ String "."%char ext; type := mime; data := payload |} :: more))
  = Some (JString stem).
Proof.
  intros Hs He Ht.
  destruct (sessionTitle_simple_name stem ext mime payload more Hs He Ht) as [H _].
  unfold finalReport. rewrite get_set_eq, H. reflexivity.
Qed.

Lemma title_is_stem_witness :
  Obj.get "title"
    (finalReport (JObject []) "0.4fzyo82mvyr" "Nov 3, 2026"
       [ {| name := "deck.pptx"; type := "application/pdf"; data := "data:," |} ])
  = Some (JString "deck").
Proof.
  exact (title_is_stem "deck" "pptx" "application/pdf" "data:," [] (JObject [])
           "0.4fzyo82mvyr" "Nov 3, 2026" eq_refl eq_refl eq_refl).
Defined.

(** ** Two sessions at once *)

Section SharedProgress.

Lemma progress_kept (st : AppState) (ev : Event) :
  analysisProgress st = 100%Q ->
  Trace.generateClicks [ev] = 0%nat ->
  analysisProgress (react st ev) = 100%Q.
Proof.
  intros H Hc.
  destruct ev; try discriminate Hc; clear Hc;
    try (handler_cases; first [exact H | reflexivity]).
  - settle_cases st k outcome; first [exact H | reflexivity].
  - unfold react, dispatch, App.bind, get.
    destruct (intervals st !! id); [|exact H].
    unfold interval_callback, App.bind, get. rewrite H. reflexivity.
Qed.

Lemma progress_kept_run (evs : list Event) (st : AppState) :
  analysisProgress st = 100%Q ->
  Trace.generateClicks evs = 0%nat ->
  analysisProgress (run st evs) = 100%Q.
Proof.
  revert st. induction evs as [|ev evs IH]; intros st H Hc; [exact H|].
  change (run st (ev :: evs)) with (run (react st ev) evs).
  rewrite (generateClicks_cons ev evs) in Hc.
  apply IH; [apply progress_kept; [exact H|lia]|lia].
Qed.

End SharedProgress.

(** X27. The progress value is shared by all sessions.  When one session
    succeeds it sets the progress to 100, where it stays until the generate
    button is clicked again; so an interval that is still live then, that
    of another session still in flight, clears itself the next time it
    fires and leaves the progress at 100, although the request of its
    session has not settled. *)
Theorem success_stops_other_timers (st : AppState) (k : nat) (a : Analysis)
    (outcome : Gemini.Outcome) (random36 today : string) (result : json)
    (evs : list Event) (id cs : nat) (random : Q) :
  analyses st !! k = Some a ->
  Gemini.resume (awaited a) outcome = Return result ->
  Trace.generateClicks evs = 0%nat ->
  let st1 := run (react st (RequestSettled k outcome random36 today)) evs in
  intervals st1 !! id = Some cs ->
  let st' := react st1 (IntervalFired id random) in
  analysisProgress st1 = 100%Q /\
  intervals st' !! id = None /\
  analysisProgress st' = 100%Q /\
  analyses st' = analyses st1.
Proof.
  intros Ha Hr Hc st1 Hi st'.
  assert (Hp : analysisProgress st1 = 100%Q).
  { subst st1. apply progress_kept_run; [|exact Hc].
    rewrite (react_settle_success _ _ _ _ _ _ _ Ha Hr). reflexivity. }
  split; [exact Hp|]. subst st'.
  unfold react, dispatch, App.bind, get. rewrite Hi.
  unfold interval_callback, App.bind, get. rewrite Hp. cbn.
  split; [apply lookup_delete_eq|]. split; reflexivity.
Qed.

Lemma success_stops_other_timers_witness :
  let st := run initial [ GenerateClick; NavGenerateClick; GenerateClick ] in
  let st1 := run (react st (RequestSettled 0 (Gemini.Fulfilled (Some "{}"))
                              "0.4fzyo82mvyr" "Nov 3, 2026"))
               [ TimeoutFired; NavReportsClick ] in
  intervals st1 !! 2%nat = Some 0%nat /\
  length (analyses st1) = 1%nat /\
  intervals (react st1 (IntervalFired 2 (1 # 2))) !! 2%nat = None.
Proof.
  intros st st1.
  split; [reflexivity|]. split; [reflexivity|].
  exact (proj1 (proj2
    (success_stops_other_timers st 0
       {| closure_files := []; closure_interval := 1;
          awaited := Gemini.generateMeetingIntelligence EmptyString EmptyString
                       EmptyString [] |}
       (Gemini.Fulfilled (Some "{}")) "0.4fzyo82mvyr" "Nov 3, 2026"
       (JObject []) [ TimeoutFired; NavReportsClick ] 2 0 (1 # 2)
       eq_refl eq_refl eq_refl eq_refl))).
Defined.
